(** * automlbenchmark: the docker runner and the framework adapters

    A shallow embedding of
      - [amlb/runners/docker.py]  (class [DockerBenchmark]),
      - [frameworks/RandomForest/exec.py], [frameworks/constantpredictor/exec.py],
        [frameworks/flaml/exec.py], [frameworks/DecisionTree/exec.py]
        (the [run] entry points),
      - [frameworks/TunedRandomForest/exec.py]  ([pick_values_uniform] and
        the values of [max_features] that [run] tries),
    together with the properties the specification states about them.

    Python code that raises is embedded in an error monad; code that talks
    to the outside (shell commands, the file system, the ML library) is
    embedded with explicit state passing: the state records the effects in
    the order they happen, and the answers of the outside world are given
    by an environment record.  Floats are binary64 ([PrimFloat]).

    Layout: the embeddings ([Py], [TunedRandomForest], [Docker], [Adapter],
    [RandomForest], [constantpredictor], [flaml], then [DockerMore],
    [DecisionTree] and [TunedRandomForestMore]), sample settings and the
    vocabulary of the statements come first; the properties follow in
    [TunedRandomForestFacts], [DockerFacts] and [AdapterFacts], and further
    properties of the same code in [DockerMoreFacts], [AdapterMoreFacts] and
    [TunedRandomForestMoreFacts]. *)

From Stdlib Require Import ZArith List String Ascii Bool Lia Floats Sorted.
From stdpp Require Import base gmap strings list.
Import ListNotations.

Local Open Scope string_scope.
Local Open Scope list_scope.

(** ** Python outcomes *)

Module Py.

(** The exception classes the embedded code can meet.  [KeyboardInterrupt]
    and [SystemExit] derive from [BaseException] only; every other class
    derives from [Exception]. *)
Inductive exn_class :=
| KeyboardInterrupt | SystemExit
| ValueError | TypeError | RuntimeError
| OSError | FileNotFoundError | EOFError
| ZeroDivisionError | OverflowError
| CalledProcessError | PicklingError.

Record exn := Exn { exn_cls : exn_class; exn_msg : string }.

Definition is_Exception (e : exn) : bool :=
  match exn_cls e with
  | KeyboardInterrupt | SystemExit => false
  | _ => true
  end.

(** What evaluating a piece of Python yields: a value or a raised exception. *)
Inductive outcome (A : Type) :=
| Ret (a : A)
| Raise (e : exn).
Arguments Ret {A} a.
Arguments Raise {A} e.

Definition obind {A B} (c : outcome A) (k : A -> outcome B) : outcome B :=
  match c with
  | Ret a => k a
  | Raise e => Raise e
  end.

(** A list comprehension whose element expression can raise: elements are
    evaluated left to right and the first exception ends the loop. *)
Fixpoint omap {A B} (f : A -> outcome B) (l : list A) : outcome (list B) :=
  match l with
  | [] => Ret []
  | x :: l' => obind (f x) (fun y => obind (omap f l') (fun ys => Ret (y :: ys)))
  end.

(** Effectful code: a state [W] is threaded through, also when the code raises. *)
Definition M (W A : Type) : Type := W -> outcome A * W.

Definition ret {W A} (a : A) : M W A := fun w => (Ret a, w).
Definition raise {W A} (e : exn) : M W A := fun w => (Raise e, w).
Definition bind {W A B} (c : M W A) (k : A -> M W B) : M W B :=
  fun w => match c w with
           | (Ret a, w') => k a w'
           | (Raise e, w') => (Raise e, w')
           end.
Definition lift {W A} (o : outcome A) : M W A := fun w => (o, w).

(** [for x in l: body x] *)
Fixpoint for_each {W A} (l : list A) (body : A -> M W unit) : M W unit :=
  match l with
  | [] => ret tt
  | x :: l' => bind (body x) (fun _ => for_each l' body)
  end.

(** [try: body  except <classes accepted by catch>: handler].
    The handler receives the exception being handled. *)
Definition try_except {W A} (body : M W A) (catch : exn -> bool)
           (handler : exn -> M W A) : M W A :=
  fun w => match body w with
           | (Raise e, w') => if catch e then handler e w' else (Raise e, w')
           | r => r
           end.

(** [try: body  finally: fin].  The [finally] suite is given the exception
    in flight, if any; when it completes without raising, the outcome of
    the body stands, and when it raises, its exception is the outcome. *)
Definition try_finally {W A} (body : M W A) (fin : option exn -> M W unit) : M W A :=
  fun w => match body w with
           | (r, w') =>
               let inflight := match r with Raise e => Some e | Ret _ => None end in
               match fin inflight w' with
               | (Ret _, w'') => (r, w'')
               | (Raise e', w'') => (Raise e', w'')
               end
           end.

(** A bare [raise]: re-raises the active exception, which inside a
    [finally] suite is the exception in flight and otherwise the exception
    the enclosing [except] clause is handling. *)
Definition reraise {W A} (handled : option exn) (inflight : option exn) : M W A :=
  match inflight, handled with
  | Some e, _ => raise e
  | None, Some e => raise e
  | None, None => raise (Exn RuntimeError "No active exception to reraise")
  end.

End Py.
Import Py.

Notation "'do' x <- c ; k" := (bind c (fun x => k))
  (at level 10, x name, c at level 100, k at level 200).
Notation "'do_' c ; k" := (bind c (fun _ => k))
  (at level 10, c at level 100, k at level 200).

(** ** frameworks/TunedRandomForest/exec.py: [pick_values_uniform] *)

Module TunedRandomForest.

(** [float(z)] for a Python int: the nearest binary64 value, ties to even;
    [OverflowError] when [z] is too large. *)
Definition float_of_int (z : Z) : outcome float :=
  let f := SF2Prim (binary_normalize prec emax z 0 false) in
  if is_infinity f then Raise (Exn OverflowError "int too large to convert to float")
  else Ret f.

(** An integer as an (unrounded) floating-point datum. *)
Definition SF_of_Z (z : Z) : spec_float :=
  match z with
  | Z0 => S754_zero false
  | Zpos p => S754_finite false p 0
  | Zneg p => S754_finite true p 0
  end.

(** [a / b] on Python ints: the quotient rounded once to binary64. *)
Definition int_truediv (a b : Z) : outcome float :=
  if (b =? 0)%Z then Raise (Exn ZeroDivisionError "division by zero")
  else
    let f := SF2Prim (SFdiv prec emax (SF_of_Z a) (SF_of_Z b)) in
    if is_infinity f then Raise (Exn OverflowError "integer division result too large for a float")
    else Ret f.

(** [int(f)]: truncation toward zero. *)
Definition int_of_float (f : float) : outcome Z :=
  match Prim2SF f with
  | S754_zero _ => Ret 0%Z
  | S754_finite s m e =>
      let a := match e with
               | Zneg k => Z.shiftr (Zpos m) (Zpos k)
               | _ => Z.shiftl (Zpos m) e
               end in
      Ret (if s then Z.opp a else a)
  | S754_infinity _ => Raise (Exn OverflowError "cannot convert float infinity to integer")
  | S754_nan => Raise (Exn ValueError "cannot convert float NaN to integer")
  end.

(** [range(n)] *)
Definition range (n : Z) : list Z := map Z.of_nat (seq 0 (Z.to_nat n)).

(** [sorted(set(l))] on ints: the elements of [l] in increasing order,
    each once. *)
Fixpoint insert_uniq (x : Z) (l : list Z) : list Z :=
  match l with
  | [] => [x]
  | y :: l' =>
      if (x <? y)%Z then x :: y :: l'
      else if (x =? y)%Z then y :: l'
      else y :: insert_uniq x l'
  end.

Definition sorted_set (l : list Z) : list Z := fold_right insert_uniq [] l.

(** [[
    def pick_values_uniform(start: int, end: int, length: int):
        d = (end - start) / (length - 1)
        uniform_floats = [start + i * d for i in range(length)]
        return sorted(set([int(f) for f in uniform_floats]))
    ]] *)
Definition pick_values_uniform (start end_ length : Z) : outcome (list Z) :=
  obind (int_truediv (end_ - start) (length - 1)) (fun d =>
  obind (omap (fun i =>
                 obind (float_of_int i) (fun fi =>
                 obind (float_of_int start) (fun fs =>
                 Ret (fs + fi * d)%float)))
              (range length)) (fun uniform_floats =>
  obind (omap int_of_float uniform_floats) (fun ints =>
  Ret (sorted_set ints)))).

End TunedRandomForest.

(** ** amlb/runners/docker.py: [DockerBenchmark] *)

Module Docker.

(** *** Strings: [str.strip], [re.match], [os.path.join], command words

    Strings are sequences of characters with code points below 256. *)

(** [str.isspace] on one character. *)
Definition isspace (c : ascii) : bool :=
  let n := nat_of_ascii c in
  (((9 <=? n) && (n <=? 13)) || ((28 <=? n) && (n <=? 32)) || (n =? 133) || (n =? 160))%nat.

Fixpoint lstrip (s : string) : string :=
  match s with
  | EmptyString => EmptyString
  | String c s' => if isspace c then lstrip s' else s
  end.

Fixpoint rstrip (s : string) : string :=
  match s with
  | EmptyString => EmptyString
  | String c s' =>
      match rstrip s' with
      | EmptyString => if isspace c then EmptyString else String c EmptyString
      | r => String c r
      end
  end.

(** [s.strip()] *)
Definition strip (s : string) : string := lstrip (rstrip s).

(** The character class [[0-9a-f]]. *)
Definition is_hex_digit (c : ascii) : bool :=
  let n := nat_of_ascii c in
  (((48 <=? n) && (n <=? 57)) || ((97 <=? n) && (n <=? 102)))%nat.

Definition newline : ascii := ascii_of_nat 10.

(** [re.match(r'^[0-9a-f]+$', s)] as a truth value: one or more characters
    of the class up to the end of [s], where [$] also matches just before a
    newline that ends [s].  [seen] tells whether a character of the class
    has been consumed. *)
Fixpoint match_hex_from (seen : bool) (s : string) : bool :=
  match s with
  | EmptyString => seen
  | String c s' =>
      if is_hex_digit c then match_hex_from true s'
      else seen && Ascii.eqb c newline && String.eqb s' EmptyString
  end.

Definition re_match_hex (s : string) : bool := match_hex_from false s.

(** [os.path.join(a, b)] (posix). *)
Definition path_join (a b : string) : string :=
  if String.prefix "/" b then b
  else if String.eqb a "" || String.eqb (substring (String.length a - 1) 1 a) "/" then a +:+ b
  else a +:+ "/" +:+ b.

(** [s.split(" ")]: the pieces of [s] between single blanks. *)
Fixpoint split_blank (s : string) : list string :=
  match s with
  | EmptyString => [EmptyString]
  | String c s' =>
      if Ascii.eqb c " " then EmptyString :: split_blank s'
      else match split_blank s' with
           | w :: ws => String c w :: ws
           | [] => [String c EmptyString]
           end
  end.

(** The blank-separated words of a command line: its non-empty pieces. *)
Definition words (s : string) : list string :=
  List.filter (fun w => negb (String.eqb w "")) (split_blank s).

(** *** The outside world *)

(** The effects of the runner, in the order they happen. *)
Inductive event :=
| EvTouch (d : string)          (* the directory [d] was made to exist *)
| EvCmd (cmd : string).         (* the shell command [cmd] was issued *)

(** The state threaded through the runner: the directories that exist and
    the effects so far. *)
Record world := World { dirs : gset string; trace : list event }.

(** [rconfig()]: the part of the configuration the runner reads. *)
Record config := Config {
  input_dir : string;
  output_dir : string;
  user_dir : string;
  docker_run_extra_options : string;
}.

(** What [amlb.utils] and the outside world answer.  [str_digest] and
    [str_sanitize] are pure helpers; [cmd_result] is what running a shell
    command yields, its captured (stdout, stderr) or an exception;
    [touch_result] tells whether making a directory exist fails. *)
Record env := Env {
  rconfig : config;
  str_digest : string -> string;
  str_sanitize : string -> string;
  cmd_result : string -> outcome (string * string);
  touch_result : string -> option exn;
}.

(** The attributes of a [DockerBenchmark] the runner reads; [image] and
    [output_dirs.session] are computed by [ContainerBenchmark]. *)
Record DockerBenchmark := Self {
  sid : string;
  image : string;
  output_dirs_session : string;
  _framework_dir : string;
}.

Section Runner.

Variable E : env.

(** Modelled from the spec: [amlb.utils.run_cmd], which is not among the
    sources.  It issues the command and returns what it captured; a command
    that fails (non-zero exit code) or is interrupted raises.  The keyword
    arguments ([_capture_error_], [_live_output_], [_activity_timeout_])
    only select how the output is displayed. *)
Definition run_cmd (cmd : string) : M world (string * string) :=
  fun w => (cmd_result E cmd, World (dirs w) (trace w ++ [EvCmd cmd])).

(** Modelled from the spec: [amlb.utils.touch(d, as_dir=True)], which is
    not among the sources.  It guarantees the existence of the directory
    [d], creating it if absent, unless it raises. *)
Definition touch (d : string) : M world unit :=
  fun w => match touch_result E d with
           | Some e => (Raise e, w)
           | None => (Ret tt, World ({[d]} ∪ dirs w) (trace w ++ [EvTouch d]))
           end.

(** [[
    @property
    def _script(self):
        return os.path.join(self._framework_dir, 'Dockerfile')
    ]] *)
Definition _script (self : DockerBenchmark) : string :=
  path_join (_framework_dir self) "Dockerfile".

(** Line 53: [inst_name = f"{self.sid}.{str_sanitize(str_digest(script_params))}"] *)
Definition inst_name (self : DockerBenchmark) (script_params : string) : string :=
  sid self +:+ "." +:+ str_sanitize E (str_digest E script_params).

(** Lines 54-67: the [docker run] command line. *)
Definition run_command (self : DockerBenchmark) (script_params : string) : string :=
  let in_dir := input_dir (rconfig E) in
  let custom_dir := user_dir (rconfig E) in
  let script_extra_params := "--session=" in
  "docker run --name " +:+ inst_name self script_params +:+ " "
    +:+ docker_run_extra_options (rconfig E) +:+ " "
    +:+ "-v " +:+ in_dir +:+ ":/input -v " +:+ output_dirs_session self
    +:+ ":/output -v " +:+ custom_dir +:+ ":/custom "
    +:+ "--rm " +:+ image self +:+ " " +:+ script_params
    +:+ " -i /input -o /output -u /custom -s skip -Xrun_mode=docker "
    +:+ script_extra_params.

(** [[
    def _start_container(self, script_params=""):
        in_dir = rconfig().input_dir
        out_dir = rconfig().output_dir
        custom_dir = rconfig().user_dir
        for d in [in_dir, out_dir, custom_dir]:
            touch(d, as_dir=True)
        script_extra_params = "--session="
        inst_name = f"{self.sid}.{str_sanitize(str_digest(script_params))}"
        cmd = ( ... ).format( ... )
        try:
            run_cmd(cmd, _capture_error_=False)
        except:  # also want to handle KeyboardInterrupt
            try:
                run_cmd(f"docker kill {inst_name}")
            except Exception:
                pass
            finally:
                raise
    ]] *)
Definition _start_container (self : DockerBenchmark) (script_params : string)
  : M world unit :=
  let in_dir := input_dir (rconfig E) in
  let out_dir := output_dir (rconfig E) in
  let custom_dir := user_dir (rconfig E) in
  do_ for_each [in_dir; out_dir; custom_dir] touch;
  let cmd := run_command self script_params in
  try_except
    (do_ run_cmd cmd; ret tt)
    (fun _ => true)
    (fun e =>
       try_finally
         (try_except
            (do_ run_cmd ("docker kill " +:+ inst_name self script_params); ret tt)
            is_Exception
            (fun _ => ret tt))
         (fun inflight => reraise (Some e) inflight)).

(** [[
    def _image_exists(self, image):
        output, _ = run_cmd(f"docker images -q {image}")
        if re.match(r'^[0-9a-f]+$', output.strip()):
            return True
        try:
            run_cmd(f"docker pull {image}", _live_output_=True)
            return True
        except Exception:
            pass
        return False
    ]] *)
Definition _image_exists (self : DockerBenchmark) (image : string) : M world bool :=
  do out <- run_cmd ("docker images -q " +:+ image);
  let output := fst out in
  if re_match_hex (strip output) then ret true
  else
    do r <- try_except
              (do_ run_cmd ("docker pull " +:+ image); ret (Some true))
              is_Exception
              (fun _ => ret None);
    match r with
    | Some b => ret b
    | None => ret false
    end.

(** [[
    def _run_container_build_command(self, image, cache):
        run_cmd("docker build {options} -t {container} -f {script} .".format(
            options="" if cache else "--no-cache",
            container=image,
            script=self._script), ...)
    ]] *)
Definition build_command (self : DockerBenchmark) (image : string) (cache : bool) : string :=
  "docker build " +:+ (if cache then "" else "--no-cache")
    +:+ " -t " +:+ image +:+ " -f " +:+ _script self +:+ " .".

Definition _run_container_build_command (self : DockerBenchmark) (image : string)
           (cache : bool) : M world unit :=
  do_ run_cmd (build_command self image cache);
  ret tt.

End Runner.

(** The directories that exist after the effects [tr], starting from [ds]. *)
Fixpoint dirs_after (ds : gset string) (tr : list event) : gset string :=
  match tr with
  | [] => ds
  | EvTouch d :: tr' => dirs_after ({[d]} ∪ ds) tr'
  | EvCmd _ :: tr' => dirs_after ds tr'
  end.

End Docker.

(** ** frameworks/*/exec.py: the adapters *)

Module Adapter.

(** *** Data *)

(** Python values found in [framework_params] and in the task settings. *)
Inductive pyval :=
| PNone
| PBool (b : bool)
| PInt (z : Z)
| PFloat (f : float)
| PStr (s : string).

(** The truth value of a Python value, as tested by [if]. *)
Definition truthy (v : pyval) : bool :=
  match v with
  | PNone => false
  | PBool b => b
  | PInt z => negb (z =? 0)%Z
  | PFloat f => negb (is_zero f)
  | PStr s => negb (String.eqb s "")
  end.

(** Numeric arrays (features, targets, predictions); the cells play no role. *)
Definition array := list Z.

(** An estimator object: its class, the keyword arguments it was built
    with, and, once fitted, the data and keyword arguments of the fit. *)
Record estimator := Estimator {
  est_class : string;
  est_kwargs : gmap string pyval;
  est_fit : option (array * array * gmap string pyval);
}.

(** [dataset]: the train and test splits, raw and encoded. *)
Record Dataset := {
  train_X : array; train_y : array; test_X : array; test_y : array;
  train_X_enc : array; train_y_enc : array; test_X_enc : array; test_y_enc : array;
}.

(** [config]: the [TaskConfig]. *)
Record TaskConfig := {
  type_ : string;
  task_type : string;
  model_path : option string;
  seed : pyval;
  max_runtime_seconds : pyval;
  cores : pyval;
  metric : string;
  framework_params : gmap string pyval;
  output_predictions_file : string;
}.

(** Modelled from the spec: the [RunResult] built by
    [frameworks.shared.callee.result], which is not among the sources; it
    packs the keyword arguments it is given. *)
Record RunResult := result {
  output_file : string;
  predictions : array;
  truth : array;
  probabilities : option array;
  probabilities_labels : option array;
  target_is_encoded : option pyval;
  models_count : Z;
  training_duration : float;
  predict_duration : float;
  result_model_path : option string;
}.

(** The [dict] returned by the adapters that save their predictions themselves. *)
Record RunSummary := summary {
  summary_models_count : Z;
  summary_training_duration : float;
  summary_predict_duration : float;
  summary_model_path : option string;
}.

(** *** The outside world *)

Inductive timer := Training | Predict.

(** The effects of an adapter, in the order they happen. *)
Inductive event :=
| EvFit (e : estimator) (X y : array)
| EvPredict (e : estimator) (X : array)
| EvPredictProba (e : estimator) (X : array)
| EvMkdtemp (dir : string)
| EvOpenWrite (path : string)
| EvDump (e : estimator) (path : string)
| EvLoad (path : string)
| EvSavePredictions (file : string) (predictions : array) (probabilities : option array)
                    (truth : array).

(** The state threaded through an adapter: the files that hold a pickled
    estimator ([None] for a file that holds no complete pickle) and the
    effects so far.  [files] follows the adapter's own [open] and [pickle]
    calls only: what the library calls write on their own (the predictions
    file of [save_predictions], the log file that flaml's [fit] is given,
    the directory that [output_subdir] makes) is not part of the state. *)
Record world := World { files : gmap string (option estimator); trace : list event }.

(** What the ML library and the operating system answer. *)
Record env := Env {
  (* the constructor call of the class, with its keyword arguments *)
  new_result : string -> gmap string pyval -> option exn;
  (* [e.fit(X, y, **kwargs)] *)
  fit_result : estimator -> array -> array -> gmap string pyval -> option exn;
  (* [e.predict(X)], [e.predict_proba(X)] *)
  predict_result : estimator -> array -> outcome array;
  predict_proba_result : estimator -> array -> outcome array;
  (* [len(e)], [len(e.config_history)], [e.classes_] *)
  len_result : estimator -> Z;
  classes_result : estimator -> array;
  (* [Timer().duration] after the block it times *)
  duration : timer -> float;
  (* [tempfile.mkdtemp()] *)
  mkdtemp_result : outcome string;
  (* [open(path, 'wb')], [pickle.dump(e, f)], [joblib.dump] *)
  open_write_result : string -> option exn;
  dump_result : estimator -> option exn;
  (* [output_subdir(name, config)] and [save_predictions(...)] *)
  output_subdir_result : string -> outcome string;
  save_predictions_result : string -> option exn;
}.

Definition of_option_exn (o : option exn) : outcome unit :=
  match o with
  | Some e => Raise e
  | None => Ret tt
  end.

(** [os.path.join(a, b)], where [a] may be [None]. *)
Definition os_path_join (a : option string) (b : string) : outcome string :=
  match a with
  | None => Raise (Exn TypeError "expected str, bytes or os.PathLike object, not NoneType")
  | Some a => Ret (Docker.path_join a b)
  end.

(** [d.get(k, default)] *)
Definition dict_get (d : gmap string pyval) (k : string) (default : pyval) : pyval :=
  match d !! k with
  | Some v => v
  | None => default
  end.

(** [{k: v for k, v in d.items() if not k.startswith('_')}] *)
Definition public_params (d : gmap string pyval) : gmap string pyval :=
  filter (fun kv => String.prefix "_" (fst kv) = false) d.

(** [f(k1=v1, ..., **extra)]: a keyword given twice is a [TypeError]. *)
Fixpoint call_kwargs (named : list (string * pyval)) (extra : gmap string pyval)
  : outcome (gmap string pyval) :=
  match named with
  | [] => Ret extra
  | (k, v) :: named' =>
      obind (call_kwargs named' extra) (fun kw =>
      match kw !! k with
      | Some _ => Raise (Exn TypeError ("got multiple values for keyword argument '" +:+ k +:+ "'"))
      | None => Ret (<[k := v]> kw)
      end)
  end.

Section Primitives.

Variable E : env.

Definition log (ev : event) : M world unit :=
  fun w => (Ret tt, World (files w) (trace w ++ [ev])).

(** [cls(named..., **extra)] *)
Definition new (cls : string) (named : list (string * pyval)) (extra : gmap string pyval)
  : M world estimator :=
  do kw <- lift (call_kwargs named extra);
  do_ lift (of_option_exn (new_result E cls kw));
  ret (Estimator cls kw None).

(** [e.fit(X, y, named..., **extra)]; the estimator is fitted in place.
    The state records the call; a file that [fit] writes on its own
    (flaml's log file) is not among [files]. *)
Definition fit (e : estimator) (X y : array) (named : list (string * pyval))
           (extra : gmap string pyval) : M world estimator :=
  do kw <- lift (call_kwargs named extra);
  do_ log (EvFit e X y);
  do_ lift (of_option_exn (fit_result E e X y kw));
  ret (Estimator (est_class e) (est_kwargs e) (Some (X, y, kw))).

Definition predict (e : estimator) (X : array) : M world array :=
  do_ log (EvPredict e X);
  lift (predict_result E e X).

Definition predict_proba (e : estimator) (X : array) : M world array :=
  do_ log (EvPredictProba e X);
  lift (predict_proba_result E e X).

(** [tempfile.mkdtemp()] *)
Definition mkdtemp : M world string :=
  do dir <- lift (mkdtemp_result E);
  do_ log (EvMkdtemp dir);
  ret dir.

(** [[
    with open(path, 'wb') as f:
        pickle.dump(e, f)
    ]]
    Opening creates or truncates the file; a dump that raises leaves it
    without a complete pickle. *)
Definition pickle_dump_to (path : string) (e : estimator) : M world unit :=
  do_ lift (of_option_exn (open_write_result E path));
  do_ (fun w => (Ret tt, World (<[path := None]> (files w)) (trace w ++ [EvOpenWrite path])));
  do_ lift (of_option_exn (dump_result E e));
  fun w => (Ret tt, World (<[path := Some e]> (files w)) (trace w ++ [EvDump e path])).

(** [[
    with open(path, 'rb') as f:
        e = pickle.load(f)
    ]] *)
Definition pickle_load_from (path : string) : M world estimator :=
  fun w =>
    match files w !! path with
    | None => (Raise (Exn FileNotFoundError ("No such file or directory: '" +:+ path +:+ "'")), w)
    | Some None => (Raise (Exn EOFError "Ran out of input"), World (files w) (trace w ++ [EvLoad path]))
    | Some (Some e) => (Ret e, World (files w) (trace w ++ [EvLoad path]))
    end.

(** Modelled from the spec: [amlb.results.save_predictions], which is not
    among the sources; it writes the predictions to the output file.  The
    state records the call and its arguments; the file written is not among
    [files]. *)
Definition save_predictions (file : string) (probabilities : option array)
           (predictions truth : array) : M world unit :=
  do_ lift (of_option_exn (save_predictions_result E file));
  log (EvSavePredictions file predictions probabilities truth).

End Primitives.

End Adapter.

(** *** frameworks/RandomForest/exec.py *)

Module RandomForest.
Import Adapter.

(** [[
    def run(dataset, config):
        is_classification = config.type == 'classification'
        encode = config.framework_params.get('_encode', True)
        X_train, X_test = dataset.train.X, dataset.test.X
        y_train, y_test = dataset.train.y, dataset.test.y
        training_params = {k: v for k, v in config.framework_params.items()
                           if not k.startswith('_')}
        n_jobs = config.framework_params.get('_n_jobs', config.cores)
        if config.task_type == 'train':
            estimator = RandomForestClassifier if is_classification else RandomForestRegressor
            rf = estimator(n_jobs=n_jobs, random_state=config.seed, **training_params)
            with Timer() as training:
                rf.fit(X_train, y_train)
            training_duration = training.duration
            model_path = tmp.mkdtemp()
            try:
                with open(os.path.join(model_path, 'model.pkl'), 'wb') as f:
                    pickle.dump(rf, f)
            except:
                model_path = None
        elif config.task_type == 'predict':
            with open(os.path.join(config.model_path, 'model.pkl'), 'rb') as f:
                rf = pickle.load(f)
            training_duration = 0.0
            model_path = None
        else:
            raise ValueError(f"Unknown task_type: {config.task_type}")
        with Timer() as predict:
            predictions = rf.predict(X_test)
        probabilities = rf.predict_proba(X_test) if is_classification else None
        return result(output_file=config.output_predictions_file, ...)
    ]] *)
Definition run (E : env) (dataset : Dataset) (config : TaskConfig) : M world RunResult :=
  let is_classification := String.eqb (type_ config) "classification" in
  let encode := dict_get (framework_params config) "_encode" (PBool true) in
  let X_train := train_X dataset in
  let X_test := test_X dataset in
  let y_train := train_y dataset in
  let y_test := test_y dataset in
  let training_params := public_params (framework_params config) in
  let n_jobs := dict_get (framework_params config) "_n_jobs" (cores config) in
  do st <-
    (if String.eqb (task_type config) "train" then
       let estimator :=
         if is_classification then "RandomForestClassifier" else "RandomForestRegressor" in
       do rf <- new E estimator [("n_jobs", n_jobs); ("random_state", seed config)]
                    training_params;
       do rf <- fit E rf X_train y_train [] ∅;
       let training_duration := duration E Training in
       do model_path <- mkdtemp E;
       do model_path <-
         try_except
           (do_ pickle_dump_to E (Docker.path_join model_path "model.pkl") rf;
            ret (Some model_path))
           (fun _ => true)
           (fun _ => ret None);
       ret (rf, training_duration, model_path)
     else if String.eqb (task_type config) "predict" then
       do path <- lift (os_path_join (model_path config) "model.pkl");
       do rf <- pickle_load_from path;
       ret (rf, 0%float, None)
     else
       raise (Exn ValueError ("Unknown task_type: " +:+ task_type config)));
  let rf := fst (fst st) in
  let training_duration := snd (fst st) in
  let model_path := snd st in
  do predictions <- predict E rf X_test;
  do probabilities <-
    (if is_classification then do p <- predict_proba E rf X_test; ret (Some p)
     else ret None);
  ret (result (output_predictions_file config) predictions y_test probabilities None
              (Some encode) (len_result E rf) training_duration (duration E Predict)
              model_path).

End RandomForest.

(** *** frameworks/constantpredictor/exec.py *)

Module constantpredictor.
Import Adapter.

(** [[
    def run(dataset: Dataset, config: TaskConfig):
        is_classification = config.type == 'classification'
        predictor = DummyClassifier(strategy='prior') if is_classification \
                    else DummyRegressor(strategy='median')
        encode = config.framework_params.get('_encode', False)
        X_train = dataset.train.X_enc if encode else dataset.train.X
        y_train = dataset.train.y_enc if encode else dataset.train.y
        X_test = dataset.test.X_enc if encode else dataset.test.X
        y_test = dataset.test.y_enc if encode else dataset.test.y
        if config.task_type == 'train':
            with Timer() as training:
                predictor.fit(X_train, y_train)
            training_duration = training.duration
            model_path = tempfile.mkdtemp()
            try:
                with open(os.path.join(model_path, 'model.pkl'), 'wb') as f:
                    pickle.dump(predictor, f)
            except:
                model_path = None
        elif config.task_type == 'predict':
            with open(os.path.join(config.model_path, 'model.pkl'), 'rb') as f:
                predictor = pickle.load(f)
            training_duration = 0.0
            model_path = None
        else:
            raise ValueError(f"Unknown task_type: {config.task_type}")
        with Timer() as predict:
            predictions = predictor.predict(X_test)
        probabilities = predictor.predict_proba(X_test) if is_classification else None
        save_predictions(dataset=dataset, output_file=config.output_predictions_file,
                         probabilities=probabilities, predictions=predictions,
                         truth=y_test, target_is_encoded=encode)
        return dict(models_count=1, training_duration=training_duration,
                    predict_duration=predict.duration, model_path=model_path)
    ]] *)
Definition run (E : env) (dataset : Dataset) (config : TaskConfig) : M world RunSummary :=
  let is_classification := String.eqb (type_ config) "classification" in
  do predictor <-
    (if is_classification then new E "DummyClassifier" [("strategy", PStr "prior")] ∅
     else new E "DummyRegressor" [("strategy", PStr "median")] ∅);
  let encode := dict_get (framework_params config) "_encode" (PBool false) in
  let X_train := if truthy encode then train_X_enc dataset else train_X dataset in
  let y_train := if truthy encode then train_y_enc dataset else train_y dataset in
  let X_test := if truthy encode then test_X_enc dataset else test_X dataset in
  let y_test := if truthy encode then test_y_enc dataset else test_y dataset in
  do st <-
    (if String.eqb (task_type config) "train" then
       do predictor <- fit E predictor X_train y_train [] ∅;
       let training_duration := duration E Training in
       do model_path <- mkdtemp E;
       do model_path <-
         try_except
           (do_ pickle_dump_to E (Docker.path_join model_path "model.pkl") predictor;
            ret (Some model_path))
           (fun _ => true)
           (fun _ => ret None);
       ret (predictor, training_duration, model_path)
     else if String.eqb (task_type config) "predict" then
       do path <- lift (os_path_join (model_path config) "model.pkl");
       do predictor <- pickle_load_from path;
       ret (predictor, 0%float, None)
     else
       raise (Exn ValueError ("Unknown task_type: " +:+ task_type config)));
  let predictor := fst (fst st) in
  let training_duration := snd (fst st) in
  let model_path := snd st in
  do predictions <- predict E predictor X_test;
  do probabilities <-
    (if is_classification then do p <- predict_proba E predictor X_test; ret (Some p)
     else ret None);
  do_ save_predictions E (output_predictions_file config) probabilities predictions y_test;
  ret (summary 1 training_duration (duration E Predict) model_path).

End constantpredictor.

(** *** frameworks/flaml/exec.py *)

Module flaml.
Import Adapter.

(** [y.squeeze()]: arrays are kept as their cells, which squeezing leaves as they are. *)
Definition squeeze (a : array) : array := a.

(** [metrics_mapping[config.metric] if config.metric in metrics_mapping else 'auto'] *)
Definition perf_metric_of (metric : string) : string :=
  if String.eqb metric "acc" then "accuracy"
  else if String.eqb metric "auc" then "roc_auc"
  else if String.eqb metric "f1" then "f1"
  else if String.eqb metric "logloss" then "log_loss"
  else if String.eqb metric "mae" then "mae"
  else if String.eqb metric "mse" then "mse"
  else if String.eqb metric "rmse" then "rmse"
  else if String.eqb metric "r2" then "r2"
  else "auto".

(** [[
    def run(dataset, config):
        X_train, y_train = dataset.train.X, dataset.train.y.squeeze()
        X_test, y_test = dataset.test.X, dataset.test.y.squeeze()
        is_classification = config.type == 'classification'
        if config.task_type == 'train':
            time_budget = config.max_runtime_seconds
            n_jobs = config.framework_params.get('_n_jobs', config.cores)
            aml = AutoML()
            perf_metric = metrics_mapping[config.metric] \
                          if config.metric in metrics_mapping else 'auto'
            training_params = {k: v for k, v in config.framework_params.items()
                               if not k.startswith('_')}
            log_dir = output_subdir("logs", config)
            flaml_log_file_name = os.path.join(log_dir, "flaml.log")
            with Timer() as training:
                aml.fit(X_train, y_train, metric=perf_metric, task=config.type,
                        n_jobs=n_jobs, log_file_name=flaml_log_file_name,
                        time_budget=time_budget, **training_params)
            training_duration = training.duration
            model_path = tempfile.mkdtemp()
            try:
                with open(os.path.join(model_path, 'model.pkl'), 'wb') as f:
                    pickle.dump(aml, f)
            except:
                model_path = None
        elif config.task_type == 'predict':
            with open(os.path.join(config.model_path, 'model.pkl'), 'rb') as f:
                aml = pickle.load(f)
            training_duration = 0.0
            model_path = None
        else:
            raise ValueError(f"Unknown task_type: {config.task_type}")
        with Timer() as predict:
            predictions = aml.predict(X_test)
        probabilities = aml.predict_proba(X_test) if is_classification else None
        labels = aml.classes_ if is_classification else None
        return result(output_file=config.output_predictions_file, ...)
    ]] *)
Definition run (E : env) (dataset : Dataset) (config : TaskConfig) : M world RunResult :=
  let X_train := train_X dataset in
  let y_train := squeeze (train_y dataset) in
  let X_test := test_X dataset in
  let y_test := squeeze (test_y dataset) in
  let is_classification := String.eqb (type_ config) "classification" in
  do st <-
    (if String.eqb (task_type config) "train" then
       let time_budget := max_runtime_seconds config in
       let n_jobs := dict_get (framework_params config) "_n_jobs" (cores config) in
       do aml <- new E "AutoML" [] ∅;
       let perf_metric := perf_metric_of (metric config) in
       let training_params := public_params (framework_params config) in
       do log_dir <- lift (output_subdir_result E "logs");
       let flaml_log_file_name := Docker.path_join log_dir "flaml.log" in
       do aml <- fit E aml X_train y_train
                     [("metric", PStr perf_metric); ("task", PStr (type_ config));
                      ("n_jobs", n_jobs); ("log_file_name", PStr flaml_log_file_name);
                      ("time_budget", time_budget)]
                     training_params;
       let training_duration := duration E Training in
       do model_path <- mkdtemp E;
       do model_path <-
         try_except
           (do_ pickle_dump_to E (Docker.path_join model_path "model.pkl") aml;
            ret (Some model_path))
           (fun _ => true)
           (fun _ => ret None);
       ret (aml, training_duration, model_path)
     else if String.eqb (task_type config) "predict" then
       do path <- lift (os_path_join (model_path config) "model.pkl");
       do aml <- pickle_load_from path;
       ret (aml, 0%float, None)
     else
       raise (Exn ValueError ("Unknown task_type: " +:+ task_type config)));
  let aml := fst (fst st) in
  let training_duration := snd (fst st) in
  let model_path := snd st in
  do predictions <- predict E aml X_test;
  do probabilities <-
    (if is_classification then do p <- predict_proba E aml X_test; ret (Some p)
     else ret None);
  let labels := if is_classification then Some (classes_result E aml) else None in
  ret (result (output_predictions_file config) predictions y_test probabilities labels
              None (len_result E aml) training_duration (duration E Predict)
              model_path).

End flaml.

(** ** A sample docker setting, for the examples *)

Module DockerSample.
Import Docker.

Definition hex_char (n : N) : ascii :=
  ascii_of_N (if (n <? 10)%N then 48 + n else 87 + n).

(** A small stand-in for [str_digest]: four hexadecimal digits computed
    from the character codes. *)
Fixpoint checksum (s : string) (acc : N) : N :=
  match s with
  | EmptyString => acc
  | String c s' => checksum s' ((31 * acc + N_of_ascii c) mod 65536)%N
  end.

Definition digest4 (s : string) : string :=
  let n := checksum s 7%N in
  String (hex_char (n / 4096)%N) (String (hex_char ((n / 256) mod 16)%N)
    (String (hex_char ((n / 16) mod 16)%N) (String (hex_char (n mod 16)%N) EmptyString))).

(** A stand-in for [str_sanitize]: every character other than a letter, a
    digit, [_] and [-] becomes [_]. *)
Definition keep_char (c : ascii) : bool :=
  let n := nat_of_ascii c in
  (((48 <=? n) && (n <=? 57)) || ((65 <=? n) && (n <=? 90)) || ((97 <=? n) && (n <=? 122))
   || (n =? 95) || (n =? 45))%nat.

Fixpoint sanitize (s : string) : string :=
  match s with
  | EmptyString => EmptyString
  | String c s' => String (if keep_char c then c else "_"%char) (sanitize s')
  end.

Definition cfg : config :=
  Config "/data/in" "/data/out" "/data/user" "--shm-size=1g".

Definition self0 : DockerBenchmark :=
  Self "rf.b1.test" "automlbenchmark/rf:stable" "/data/out/rf.b1.test" "/bench/frameworks/rf".

Definition sample_env (cmd : string -> outcome (string * string))
           (tch : string -> option exn) : env :=
  Env cfg digest4 sanitize cmd tch.

Definition w0 : world := World ∅ [].

(** Every command succeeds with empty output. *)
Definition all_succeed (cmd : string) : outcome (string * string) := Ret ("", "").

(** The [docker run] is interrupted from the keyboard and the [docker kill]
    that follows fails. *)
Definition interrupted (cmd : string) : outcome (string * string) :=
  if String.prefix "docker run" cmd then Raise (Exn KeyboardInterrupt "")
  else if String.prefix "docker kill" cmd then Raise (Exn CalledProcessError "No such container")
  else Ret ("", "").

(** The docker daemon cannot be reached: every docker command fails. *)
Definition daemon_down (cmd : string) : outcome (string * string) :=
  Raise (Exn CalledProcessError "Cannot connect to the Docker daemon").

(** No image is known locally and the registry has none either. *)
Definition no_image (cmd : string) : outcome (string * string) :=
  if String.prefix "docker pull" cmd then Raise (Exn CalledProcessError "manifest unknown")
  else Ret ("", "").

Definition no_touch_failure (d : string) : option exn := None.

End DockerSample.

(** ** A sample adapter setting, for the examples *)

Module AdapterSample.
Import Adapter.

Definition ds0 : Dataset :=
  {| train_X := [1; 2; 3; 4]%Z; train_y := [0; 1]%Z; test_X := [5; 6]%Z; test_y := [1]%Z;
     train_X_enc := [1; 2; 3; 4]%Z; train_y_enc := [0; 1]%Z;
     test_X_enc := [5; 6]%Z; test_y_enc := [1]%Z |}.

Definition task (task_type : string) (model_path : option string) : TaskConfig :=
  {| type_ := "classification"; task_type := task_type; model_path := model_path;
     seed := PInt 42; max_runtime_seconds := PInt 600; cores := PInt 4; metric := "acc";
     framework_params := <["n_estimators" := PInt 2000]> (<["_n_jobs" := PInt 1]> ∅);
     output_predictions_file := "/output/predictions/rf.csv" |}.

(** A world in which everything works, except that writing a file fails
    as [write_failure] tells. *)
Definition sample_env (write_failure : string -> option exn) : env :=
  {| new_result := fun _ _ => None;
     fit_result := fun _ _ _ _ => None;
     predict_result := fun _ X => Ret [1]%Z;
     predict_proba_result := fun _ X => Ret [0; 1]%Z;
     len_result := fun _ => 2000%Z;
     classes_result := fun _ => [0; 1]%Z;
     duration := fun t => match t with Training => 12.5%float | Predict => 0.25%float end;
     mkdtemp_result := Ret "/tmp/tmpk3x9";
     open_write_result := write_failure;
     dump_result := fun _ => None;
     output_subdir_result := fun name => Ret ("/output/" +:+ name);
     save_predictions_result := fun _ => None |}.

Definition disk_ok (path : string) : option exn := None.
Definition disk_full (path : string) : option exn :=
  Some (Exn OSError "No space left on device").

(** A world in which everything works, except that no temporary directory
    can be had. *)
Definition no_tmp_env : env :=
  {| new_result := new_result (sample_env disk_ok);
     fit_result := fit_result (sample_env disk_ok);
     predict_result := predict_result (sample_env disk_ok);
     predict_proba_result := predict_proba_result (sample_env disk_ok);
     len_result := len_result (sample_env disk_ok);
     classes_result := classes_result (sample_env disk_ok);
     duration := duration (sample_env disk_ok);
     mkdtemp_result := Raise (Exn FileNotFoundError "No usable temporary directory found");
     open_write_result := disk_ok;
     dump_result := dump_result (sample_env disk_ok);
     output_subdir_result := output_subdir_result (sample_env disk_ok);
     save_predictions_result := save_predictions_result (sample_env disk_ok) |}.

(** An estimator fitted and pickled by an earlier run. *)
Definition saved_model : estimator :=
  Estimator "RandomForestClassifier" (<["n_jobs" := PInt 1]> ∅)
            (Some ([1; 2; 3; 4]%Z, [0; 1]%Z, ∅)).

Definition w0 : world := World ∅ [].
Definition w_saved : world := World (<["/models/rf/model.pkl" := Some saved_model]> ∅) [].

End AdapterSample.

(** ** Vocabulary for the properties of the docker runner *)

Module DockerSpec.
Import Docker.

(** The last character of a string, if it has one. *)
Fixpoint last_char (s : string) : option ascii :=
  match s with
  | EmptyString => None
  | String c EmptyString => Some c
  | String _ s' => last_char s'
  end.

(** Every character is in [0-9a-f]. *)
Fixpoint all_hex (s : string) : bool :=
  match s with
  | EmptyString => true
  | String c s' => is_hex_digit c && all_hex s'
  end.

(** A non-empty string of characters [0-9a-f]. *)
Definition hex_id (s : string) : bool := negb (String.eqb s "") && all_hex s.

(** The three directories can be made to exist. *)
Definition touches_succeed (E : env) : Prop :=
  touch_result E (input_dir (rconfig E)) = None
  /\ touch_result E (output_dir (rconfig E)) = None
  /\ touch_result E (user_dir (rconfig E)) = None.

End DockerSpec.

(** ** Vocabulary for the properties of the adapters *)

Module AdapterSpec.
Import Adapter.

(** The constructor call of the constant predictor. *)
Definition dummy_class (config : TaskConfig) : string :=
  if String.eqb (type_ config) "classification" then "DummyClassifier" else "DummyRegressor".

Definition dummy_kwargs (config : TaskConfig) : gmap string pyval :=
  if String.eqb (type_ config) "classification" then <["strategy" := PStr "prior"]> ∅
  else <["strategy" := PStr "median"]> ∅.

(** No model file can be found from [config.model_path]. *)
Definition model_missing (config : TaskConfig) (w : world) : Prop :=
  match model_path config with
  | None => True
  | Some dir => files w !! Docker.path_join dir "model.pkl" = None
  end.

(** The error the load raises then: [os.path.join] rejects [None], and
    [open] does not find the file. *)
Definition load_error (config : TaskConfig) : exn :=
  match model_path config with
  | None => Exn TypeError "expected str, bytes or os.PathLike object, not NoneType"
  | Some dir =>
      Exn FileNotFoundError
          ("No such file or directory: '" +:+ Docker.path_join dir "model.pkl" +:+ "'")
  end.

(** What persisting [m] at [path] raises, if anything: [open] may fail,
    and if it does not, [pickle.dump] may. *)
Definition persist_error (E : env) (path : string) (m : estimator) : option exn :=
  match open_write_result E path with
  | Some e => Some e
  | None => dump_result E m
  end.

(** The estimator a train run of the random forest builds and fits. *)
Definition rf_class (config : TaskConfig) : string :=
  if String.eqb (type_ config) "classification"
  then "RandomForestClassifier" else "RandomForestRegressor".

Definition rf_named (config : TaskConfig) : list (string * pyval) :=
  [("n_jobs", dict_get (framework_params config) "_n_jobs" (cores config));
   ("random_state", seed config)].

(** The data the constant predictor works on. *)
Definition dummy_encode (config : TaskConfig) : bool :=
  truthy (dict_get (framework_params config) "_encode" (PBool false)).

Definition dummy_train (dataset : Dataset) (config : TaskConfig) : array * array :=
  if dummy_encode config then (train_X_enc dataset, train_y_enc dataset)
  else (train_X dataset, train_y dataset).

Definition dummy_test (dataset : Dataset) (config : TaskConfig) : array * array :=
  if dummy_encode config then (test_X_enc dataset, test_y_enc dataset)
  else (test_X dataset, test_y dataset).

End AdapterSpec.

(** ** amlb/runners/docker.py: publishing *)

Module DockerMore.
Import Docker.

(** [[
    def _upload_image(self, image):
        run_cmd(f"docker login && docker push {image}")
    ]] *)
Definition _upload_image (E : env) (self : DockerBenchmark) (image : string) : M world unit :=
  do_ run_cmd E ("docker login && docker push " +:+ image);
  ret tt.

(** Every character is white space. *)
Fixpoint all_space (s : string) : bool :=
  match s with
  | EmptyString => true
  | String c s' => isspace c && all_space s'
  end.

(** The commands among the effects. *)
Fixpoint commands (tr : list event) : list string :=
  match tr with
  | [] => []
  | EvCmd c :: tr' => c :: commands tr'
  | EvTouch _ :: tr' => commands tr'
  end.

End DockerMore.

(** ** More sample settings *)

Module MoreSamples.
Import Docker DockerSample.

(** The [docker run] fails and the [docker kill] that follows is interrupted
    from the keyboard. *)
Definition kill_interrupted (cmd : string) : outcome (string * string) :=
  if String.prefix "docker run" cmd then Raise (Exn CalledProcessError "exit status 125")
  else if String.prefix "docker kill" cmd then Raise (Exn KeyboardInterrupt "")
  else Ret ("", "").

(** No image is known locally and the pull is interrupted from the keyboard. *)
Definition pull_interrupted (cmd : string) : outcome (string * string) :=
  if String.prefix "docker pull" cmd then Raise (Exn KeyboardInterrupt "")
  else Ret ("", "").

(** The output directory cannot be created. *)
Definition out_dir_denied (d : string) : option exn :=
  if String.eqb d "/data/out" then Some (Exn OSError "Permission denied") else None.

(** The local query prints an image id between blank lines. *)
Definition image_listed (cmd : string) : outcome (string * string) :=
  if String.prefix "docker images" cmd
  then Ret (String newline (" 4f1a9c" +:+ String newline ""), "")
  else Raise (Exn CalledProcessError "unexpected command").

(** A regression task, and array imputation that leaves the arrays as they are. *)
Definition regression_task (task_type : string) (model_path : option string)
  : Adapter.TaskConfig :=
  {| Adapter.type_ := "regression"; Adapter.task_type := task_type;
     Adapter.model_path := model_path;
     Adapter.seed := Adapter.PInt 7; Adapter.max_runtime_seconds := Adapter.PInt 60;
     Adapter.cores := Adapter.PInt 2; Adapter.metric := "rmse";
     Adapter.framework_params := ∅;
     Adapter.output_predictions_file := "/output/predictions/dt.csv" |}.

Definition impute_id (X_train X_test : Adapter.array)
  : outcome (Adapter.array * Adapter.array) := Ret (X_train, X_test).

End MoreSamples.

(** ** frameworks/DecisionTree/exec.py *)

Module DecisionTree.
Import Adapter.

(** [[
    def run(dataset: Dataset, config: TaskConfig):
        is_classification = config.type == 'classification'
        X_train, X_test = impute_array(dataset.train.X_enc, dataset.test.X_enc)
        y_train, y_test = dataset.train.y_enc, dataset.test.y_enc
        estimator = DecisionTreeClassifier if is_classification else DecisionTreeRegressor
        predictor = estimator(random_state=config.seed, **config.framework_params)
        if config.task_type == 'train':
            with Timer() as training:
                predictor.fit(X_train, y_train)
            training_duration = training.duration
            model_path = tempfile.mkdtemp()
            try:
                with open(os.path.join(model_path, 'model.pkl'), 'wb') as f:
                    pickle.dump(predictor, f)
            except:
                model_path = None
        elif config.task_type == 'predict':
            with open(os.path.join(config.model_path, 'model.pkl'), 'rb') as f:
                predictor = pickle.load(f)
            training_duration = 0.0
            model_path = None
        else:
            raise ValueError(f"Unknown task_type: {config.task_type}")
        with Timer() as predict:
            predictions = predictor.predict(X_test)
        probabilities = predictor.predict_proba(X_test) if is_classification else None
        save_predictions(dataset=dataset, output_file=config.output_predictions_file,
                         probabilities=probabilities, predictions=predictions,
                         truth=y_test, target_is_encoded=is_classification)
        return dict(models_count=1, training_duration=training_duration,
                    predict_duration=predict.duration, model_path=model_path)
    ]]
    [impute_array] is [amlb.datautils.impute_array], which is not among the
    sources: it is a parameter, a function that returns the two imputed
    arrays or raises. *)
Definition run (E : env) (impute_array : array -> array -> outcome (array * array))
           (dataset : Dataset) (config : TaskConfig) : M world RunSummary :=
  let is_classification := String.eqb (type_ config) "classification" in
  do imputed <- lift (impute_array (train_X_enc dataset) (test_X_enc dataset));
  let X_train := fst imputed in
  let X_test := snd imputed in
  let y_train := train_y_enc dataset in
  let y_test := test_y_enc dataset in
  let estimator :=
    if is_classification then "DecisionTreeClassifier" else "DecisionTreeRegressor" in
  do predictor <- new E estimator [("random_state", seed config)] (framework_params config);
  do st <-
    (if String.eqb (task_type config) "train" then
       do predictor <- fit E predictor X_train y_train [] ∅;
       let training_duration := duration E Training in
       do model_path <- mkdtemp E;
       do model_path <-
         try_except
           (do_ pickle_dump_to E (Docker.path_join model_path "model.pkl") predictor;
            ret (Some model_path))
           (fun _ => true)
           (fun _ => ret None);
       ret (predictor, training_duration, model_path)
     else if String.eqb (task_type config) "predict" then
       do path <- lift (os_path_join (model_path config) "model.pkl");
       do predictor <- pickle_load_from path;
       ret (predictor, 0%float, None)
     else
       raise (Exn ValueError ("Unknown task_type: " +:+ task_type config)));
  let predictor := fst (fst st) in
  let training_duration := snd (fst st) in
  let model_path := snd st in
  do predictions <- predict E predictor X_test;
  do probabilities <-
    (if is_classification then do p <- predict_proba E predictor X_test; ret (Some p)
     else ret None);
  do_ save_predictions E (output_predictions_file config) probabilities predictions y_test;
  ret (summary 1 training_duration (duration E Predict) model_path).

End DecisionTree.

(** ** Vocabulary for the further properties of the adapters *)

Module AdapterSpecMore.
Import Adapter.

(** From [w] to [w'] the effects so far are kept and those added all
    satisfy [allowed]. *)
Definition extends (allowed : event -> bool) (w w' : world) : Prop :=
  exists evs, trace w' = trace w ++ evs /\ forallb allowed evs = true.

(** The files are the same in [w] and [w']. *)
Definition same_files (w w' : world) : Prop := files w' = files w.

(** The adapter's own writes, [open(..., 'wb')] and [pickle.dump], go to
    [model.pkl] in the directory [tempfile.mkdtemp] gives; every other
    effect is let through. *)
Definition writes_model_only (E : env) (ev : event) : bool :=
  match ev with
  | EvOpenWrite path | EvDump _ path =>
      match mkdtemp_result E with
      | Ret dir => String.eqb path (Docker.path_join dir "model.pkl")
      | Raise _ => false
      end
  | _ => true
  end.

(** Whatever the state it starts in, [c] takes it to a state related to it by [R]. *)
Definition keeps {A} (R : world -> world -> Prop) (c : M world A) : Prop :=
  forall w, R w (snd (c w)).

(** Whenever [c] returns, what it returns satisfies [Q]. *)
Definition yields {A} (Q : A -> Prop) (c : M world A) : Prop :=
  forall w a, fst (c w) = Ret a -> Q a.

(** Kinds of effects. *)
Definition is_predict_proba (ev : event) : bool :=
  match ev with EvPredictProba _ _ => true | _ => false end.

Definition is_fit (ev : event) : bool :=
  match ev with EvFit _ _ _ => true | _ => false end.

Definition is_load (ev : event) : bool :=
  match ev with EvLoad _ => true | _ => false end.

(** Neither a [predict_proba] call nor predictions saved with probabilities. *)
Definition no_probabilities (ev : event) : bool :=
  match ev with
  | EvPredictProba _ _ => false
  | EvSavePredictions _ _ (Some _) _ => false
  | _ => true
  end.

(** The effects a predict run may have: loading, predicting, saving predictions. *)
Definition predict_effect (ev : event) : bool :=
  match ev with
  | EvLoad _ | EvPredict _ _ | EvPredictProba _ _ | EvSavePredictions _ _ _ _ => true
  | _ => false
  end.


(** Started in [w], [c] does not return: it raises, and of the effects
    that are recorded (calls of the estimator, loading and writing a model,
    saving predictions) it has had none but fits; and when fitting cannot
    fail and a fit was done, what it raises is [e]. *)
Definition fails_after_fit {A} (E : env) (e : exn) (c : M world A) (w : world) : Prop :=
  exists e' w',
    c w = (Raise e', w') /\ extends is_fit w w'
    /\ ((forall m X y kw, fit_result E m X y kw = None) -> trace w' <> trace w -> e' = e).

(** Anything but saving predictions. *)
Definition not_save (ev : event) : bool :=
  match ev with EvSavePredictions _ _ _ _ => false | _ => true end.

(** [ev] saves, in [file] and with the truth [y_test], what some estimator
    predicts for [X_test]: with its probabilities in a classification, and
    without any otherwise. *)
Definition saves_predictions_of (E : env) (is_classification : bool) (file : string)
           (X_test y_test : array) (ev : event) : Prop :=
  exists m preds probs,
    ev = EvSavePredictions file preds probs y_test
    /\ predict_result E m X_test = Ret preds
    /\ (if is_classification
        then exists p, probs = Some p /\ predict_proba_result E m X_test = Ret p
        else probs = None).

(** Whatever the state it starts in, [c] either returns, and then its last
    effect satisfies [Q] and is the only one that saves predictions, or
    raises, and then has saved none. *)
Definition ends_with {A} (Q : event -> Prop) (c : M world A) : Prop :=
  forall w,
    match c w with
    | (Ret _, w') =>
        exists evs ev,
          trace w' = trace w ++ evs ++ [ev] /\ forallb not_save evs = true /\ Q ev
    | (Raise _, w') => extends not_save w w'
    end.

(** In [w], [model.pkl] under [dir] is the complete pickle of a fitted estimator. *)
Definition holds_fitted_model (w : world) (dir : string) : Prop :=
  exists m, files w !! Docker.path_join dir "model.pkl" = Some (Some m) /\ est_fit m <> None.

End AdapterSpecMore.

(** ** frameworks/TunedRandomForest/exec.py: the values of [max_features] to try *)

Module TunedRandomForestMore.
Import TunedRandomForest.

(** [math.sqrt(n)] on a Python int: the int is converted to a float
    first; a negative argument is a [ValueError]. *)
Definition math_sqrt (n : Z) : outcome float :=
  obind (float_of_int n) (fun f =>
  if (f <? 0)%float then Raise (Exn ValueError "math domain error")
  else Ret (PrimFloat.sqrt f)).

(** [[
    n_features = X_train.shape[1]
    default_value = max(1, int(math.sqrt(n_features)))
    below_default = pick_values_uniform(start=1, end=default_value, length=5+1)[:-1]
    above_default = pick_values_uniform(start=default_value, end=n_features,
                                        length=10+1 - len(below_default))[1:]
    max_features_values = [default_value] + below_default + above_default
    ]]
    The slice [l[:-1]] is [removelast l] and [l[1:]] is [tl l]. *)
Definition max_features_values (n_features : Z) : outcome (list Z) :=
  obind (math_sqrt n_features) (fun root =>
  obind (int_of_float root) (fun r =>
  let default_value := Z.max 1 r in
  obind (pick_values_uniform 1 default_value (5 + 1)) (fun l1 =>
  let below_default := removelast l1 in
  obind (pick_values_uniform default_value n_features
           (10 + 1 - Z.of_nat (length below_default))) (fun l2 =>
  let above_default := tl l2 in
  Ret ([default_value] ++ below_default ++ above_default))))).

End TunedRandomForestMore.

(** ** More sample settings for the adapters *)

Module MoreAdapterSamples.
Import Adapter AdapterSample.

(** A task whose framework parameters set [random_state] themselves. *)
Definition seeded_task (task_type : string) : TaskConfig :=
  {| type_ := "classification"; task_type := task_type; model_path := None;
     seed := PInt 42; max_runtime_seconds := PInt 600; cores := PInt 4; metric := "acc";
     framework_params := <["random_state" := PInt 1]> ∅;
     output_predictions_file := "/output/predictions/rf.csv" |}.

End MoreAdapterSamples.

(** ** Properties of [pick_values_uniform] *)

Module TunedRandomForestFacts.
Import TunedRandomForest.

Example pick_values_uniform_1_5_6 :
  pick_values_uniform 1 5 6 = Ret [1; 2; 3; 4; 5]%Z.
Proof. vm_compute. reflexivity. Qed.

Example pick_values_uniform_7_62_6 :
  pick_values_uniform 7 62 6 = Ret [7; 18; 29; 40; 51; 62]%Z.
Proof. vm_compute. reflexivity. Qed.

Example pick_values_uniform_length_1 :
  pick_values_uniform 1 5 1 = Raise (Exn ZeroDivisionError "division by zero").
Proof. vm_compute. reflexivity. Qed.

(** What [sorted(set(...))] gives whatever the floats are. *)

Lemma insert_uniq_In x y l : In y (insert_uniq x l) <-> y = x \/ In y l.
Proof.
  induction l as [|z l IH]; simpl.
  - intuition.
  - destruct (Z.ltb_spec x z); [simpl; intuition|].
    destruct (Z.eqb_spec x z); simpl; [subst; intuition|].
    rewrite IH. intuition.
Qed.

Lemma sorted_set_In y l : In y (sorted_set l) <-> In y l.
Proof.
  induction l as [|x l IH]; simpl; [tauto|].
  rewrite insert_uniq_In, IH. intuition.
Qed.

Lemma insert_uniq_sorted x l :
  StronglySorted Z.lt l -> StronglySorted Z.lt (insert_uniq x l).
Proof.
  induction 1 as [|z l Hs IH Hall]; simpl.
  - repeat constructor.
  - destruct (Z.ltb_spec x z).
    + constructor; [constructor; assumption|].
      constructor; [assumption|].
      rewrite List.Forall_forall in *. intros y Hy. specialize (Hall y Hy). lia.
    + destruct (Z.eqb_spec x z); [constructor; assumption|].
      constructor; [assumption|].
      rewrite List.Forall_forall in *. intros y Hy.
      apply insert_uniq_In in Hy as [->|Hy]; [lia|auto].
Qed.

Lemma sorted_set_sorted l : StronglySorted Z.lt (sorted_set l).
Proof.
  induction l; simpl; [constructor|]. now apply insert_uniq_sorted.
Qed.

Lemma insert_uniq_length x l : (length (insert_uniq x l) <= S (length l))%nat.
Proof.
  induction l as [|z l IH]; simpl; [lia|].
  destruct (x <? z)%Z; [simpl; lia|].
  destruct (x =? z)%Z; simpl; lia.
Qed.

Lemma sorted_set_length l : (length (sorted_set l) <= length l)%nat.
Proof.
  induction l as [|x l IH]; simpl; [lia|].
  pose proof (insert_uniq_length x (sorted_set l)). lia.
Qed.

Lemma omap_length {A B} (f : A -> outcome B) l l' :
  omap f l = Ret l' -> length l' = length l.
Proof.
  revert l'. induction l as [|x l IH]; simpl; intros l' H.
  - now inversion H.
  - destruct (f x); simpl in H; [|discriminate].
    destruct (omap f l); simpl in H; [|discriminate].
    inversion H; subst. simpl. f_equal. now apply IH.
Qed.

(** Whenever [pick_values_uniform] returns, the list is strictly
    increasing and has at most [length] elements. *)
Lemma pick_values_uniform_sorted start end_ length l :
  pick_values_uniform start end_ length = Ret l ->
  StronglySorted Z.lt l /\ (Z.of_nat (List.length l) <= Z.max 0 length)%Z.
Proof.
  unfold pick_values_uniform. intros H.
  destruct (int_truediv _ _) as [d|]; simpl in H; [|discriminate].
  destruct (omap _ (range length)) as [fs|] eqn:Hfs; simpl in H; [|discriminate].
  destruct (omap int_of_float fs) as [ints|] eqn:Hints; simpl in H; [|discriminate].
  inversion H; subst. split; [apply sorted_set_sorted|].
  pose proof (sorted_set_length ints).
  apply omap_length in Hfs, Hints.
  unfold range in Hfs. rewrite length_map, length_seq in Hfs. lia.
Qed.

(** C10 (evaluated at a failing input).  With [start = 1], [end = 62] and
    [length = 8] the last float is [61.99999999999999], which [int]
    truncates to [61]: the returned list ends in [61], not in [end]. *)
Theorem pick_values_uniform_last_not_end :
  pick_values_uniform 1 62 8 = Ret [1; 9; 18; 27; 35; 44; 53; 61]%Z
  /\ List.last [1; 9; 18; 27; 35; 44; 53; 61]%Z 0%Z <> 62%Z.
Proof. split; [vm_compute; reflexivity | simpl; lia]. Qed.

End TunedRandomForestFacts.

(** ** Properties of the docker runner *)

Module DockerFacts.
Import Docker DockerSample DockerSpec.

(** *** Strings *)

Lemma append_nil (b : string) : "" +:+ b = b.
Proof. reflexivity. Qed.

Lemma append_cons (x : ascii) (a b : string) : String x a +:+ b = String x (a +:+ b).
Proof. reflexivity. Qed.

Lemma append_assoc (a b c : string) : (a +:+ b) +:+ c = a +:+ (b +:+ c).
Proof.
  induction a as [|x a IH]; [reflexivity|].
  rewrite !append_cons. f_equal. exact IH.
Qed.

Lemma append_inj_l (a b c : string) : a +:+ b = a +:+ c -> b = c.
Proof.
  induction a as [|x a IH]; [now rewrite !append_nil|].
  rewrite !append_cons. intros H. inversion H. auto.
Qed.

Lemma split_blank_not_nil s : split_blank s <> [].
Proof.
  destruct s as [|c s]; simpl; [discriminate|].
  destruct (Ascii.eqb c " "); [discriminate|].
  destruct (split_blank s); discriminate.
Qed.

Lemma split_blank_app_blank a b :
  split_blank (a +:+ " " +:+ b) = split_blank a ++ split_blank b.
Proof.
  induction a as [|c a IH]; [reflexivity|].
  rewrite append_cons. simpl.
  destruct (Ascii.eqb c " "); simpl; [now rewrite IH|].
  rewrite IH. pose proof (split_blank_not_nil a).
  destruct (split_blank a); [contradiction|reflexivity].
Qed.

(** A blank ends a word: the words of [a b] are those of [a] then those of [b]. *)
Lemma words_app_blank a b : words (a +:+ " " +:+ b) = words a ++ words b.
Proof. unfold words. now rewrite split_blank_app_blank, List.filter_app. Qed.

(** *** Stripped strings and the image-id pattern *)

Lemma rstrip_last s c : last_char (rstrip s) = Some c -> isspace c = false.
Proof.
  revert c. induction s as [|x s IH]; simpl; intros c; [discriminate|].
  destruct (rstrip s) as [|y r] eqn:Hr.
  - destruct (isspace x) eqn:Hx; simpl; [discriminate|]. now intros [= <-].
  - intros H. apply IH. exact H.
Qed.

Lemma lstrip_last s c : last_char (lstrip s) = Some c -> last_char s = Some c.
Proof.
  induction s as [|x s IH]; simpl; [discriminate|].
  destruct (isspace x); [|auto].
  intros H. specialize (IH H). destruct s; [discriminate|exact IH].
Qed.

Lemma strip_last s c : last_char (strip s) = Some c -> isspace c = false.
Proof. intros H. apply lstrip_last in H. now apply rstrip_last in H. Qed.

Lemma match_hex_from_spec seen s :
  (forall c, last_char s = Some c -> isspace c = false) ->
  match_hex_from seen s = (seen || negb (String.eqb s "")) && all_hex s.
Proof.
  revert seen. induction s as [|x s IH]; intros seen Hlast; simpl.
  - now rewrite orb_false_r, andb_true_r.
  - destruct (is_hex_digit x) eqn:Hx; simpl.
    + rewrite IH.
      * simpl. now rewrite orb_true_r.
      * intros c Hc. apply Hlast. destruct s; [discriminate|exact Hc].
    + rewrite andb_false_r. destruct seen; simpl; [|reflexivity].
      destruct (Ascii.eqb_spec x newline) as [->|]; [|reflexivity].
      destruct s; simpl; [|reflexivity].
      specialize (Hlast newline eq_refl). discriminate.
Qed.

(** On a stripped string the pattern [^[0-9a-f]+$] matches exactly the
    non-empty strings of hexadecimal digits. *)
Lemma re_match_hex_strip s : re_match_hex (strip s) = hex_id (strip s).
Proof. unfold re_match_hex, hex_id. rewrite match_hex_from_spec; [reflexivity|apply strip_last]. Qed.

Example re_match_hex_trailing_newline : re_match_hex (String "a" (String newline "")) = true.
Proof. reflexivity. Qed.

Example strip_image_id : strip (String "4" (String "f" (String newline ""))) = "4f".
Proof. reflexivity. Qed.

(** *** The command lines, word by word *)

Lemma build_command_words self image cache :
  words (build_command self image cache)
  = ["docker"; "build"] ++ (if cache then [] else ["--no-cache"])
      ++ ["-t"] ++ words image ++ ["-f"] ++ words (_script self) ++ ["."].
Proof.
  assert (build_command self image cache
          = "docker" +:+ " " +:+ "build" +:+ " " +:+ (if cache then "" else "--no-cache")
              +:+ " " +:+ "-t" +:+ " " +:+ image +:+ " " +:+ "-f" +:+ " " +:+ _script self
              +:+ " " +:+ ".") as -> by reflexivity.
  rewrite !words_app_blank. destruct cache; reflexivity.
Qed.

Lemma run_command_words E self script_params :
  words (run_command E self script_params)
  = ["docker"; "run"; "--name"] ++ words (inst_name E self script_params)
      ++ words (docker_run_extra_options (rconfig E))
      ++ ["-v"] ++ words (input_dir (rconfig E) +:+ ":/input")
      ++ ["-v"] ++ words (output_dirs_session self +:+ ":/output")
      ++ ["-v"] ++ words (user_dir (rconfig E) +:+ ":/custom")
      ++ ["--rm"] ++ words (image self) ++ words script_params
      ++ ["-i"; "/input"; "-o"; "/output"; "-u"; "/custom"; "-s"; "skip";
          "-Xrun_mode=docker"; "--session="].
Proof.
  assert (run_command E self script_params
          = "docker" +:+ " " +:+ "run" +:+ " " +:+ "--name" +:+ " "
              +:+ inst_name E self script_params +:+ " "
              +:+ docker_run_extra_options (rconfig E) +:+ " "
              +:+ "-v" +:+ " " +:+ (input_dir (rconfig E) +:+ ":/input") +:+ " "
              +:+ "-v" +:+ " " +:+ (output_dirs_session self +:+ ":/output") +:+ " "
              +:+ "-v" +:+ " " +:+ (user_dir (rconfig E) +:+ ":/custom") +:+ " "
              +:+ "--rm" +:+ " " +:+ image self +:+ " " +:+ script_params +:+ " "
              +:+ "-i" +:+ " " +:+ "/input" +:+ " " +:+ "-o" +:+ " " +:+ "/output" +:+ " "
              +:+ "-u" +:+ " " +:+ "/custom" +:+ " " +:+ "-s" +:+ " " +:+ "skip" +:+ " "
              +:+ "-Xrun_mode=docker" +:+ " " +:+ "--session=") as ->.
  { unfold run_command. rewrite !append_assoc. reflexivity. }
  rewrite !words_app_blank. reflexivity.
Qed.

(** *** Running [_start_container] *)

Section Start.

Variable E : env.
Variable self : DockerBenchmark.
Variable script_params : string.

Let in_dir := input_dir (rconfig E).
Let out_dir := output_dir (rconfig E).
Let custom_dir := user_dir (rconfig E).
Let run := run_command E self script_params.
Let kill := "docker kill " +:+ inst_name E self script_params.
Let touched := [EvTouch in_dir; EvTouch out_dir; EvTouch custom_dir].

Lemma start_container_steps w :
  touches_succeed E ->
  let ds := {[custom_dir]} ∪ ({[out_dir]} ∪ ({[in_dir]} ∪ dirs w)) in
  _start_container E self script_params w =
    match cmd_result E run with
    | Ret _ => (Ret tt, World ds (trace w ++ touched ++ [EvCmd run]))
    | Raise e =>
        (match cmd_result E kill with
         | Ret _ => Raise e
         | Raise e2 => if is_Exception e2 then Raise e else Raise e2
         end,
         World ds (trace w ++ touched ++ [EvCmd run; EvCmd kill]))
    end.
Proof.
  intros (Hin & Hout & Hcustom) ds. subst ds.
  unfold _start_container, for_each, bind, touch, try_except, try_finally, run_cmd, ret, reraise, raise.
  rewrite Hin, Hout, Hcustom. simpl.
  fold in_dir out_dir custom_dir run kill.
  replace (((trace w ++ [EvTouch in_dir]) ++ [EvTouch out_dir]) ++ [EvTouch custom_dir])
    with (trace w ++ touched) by (unfold touched; now rewrite <- !app_assoc).
  destruct (cmd_result E run) as [[o e]|e]; simpl.
  - now rewrite <- app_assoc.
  - destruct (cmd_result E kill) as [[o2 e2]|e2]; simpl.
    + now rewrite <- !app_assoc.
    + destruct (is_Exception e2); simpl; now rewrite <- !app_assoc.
Qed.

(** When a directory cannot be made to exist the run is not started: no
    shell command is issued. *)
Lemma start_container_touch_fails w :
  ~ touches_succeed E ->
  exists e tr, _start_container E self script_params w
               = (Raise e, World (dirs_after (dirs w) tr) (trace w ++ tr))
               /\ forall c, ~ In (EvCmd c) tr.
Proof.
  intros Hno.
  unfold _start_container, for_each, bind, touch, ret.
  fold in_dir out_dir custom_dir.
  destruct (touch_result E in_dir) as [e|] eqn:Hin.
  { exists e, []. simpl. rewrite app_nil_r. destruct w; split; [reflexivity|auto]. }
  simpl. destruct (touch_result E out_dir) as [e|] eqn:Hout.
  { exists e, [EvTouch in_dir]. split; [reflexivity|]. intros c [H|[]]; discriminate. }
  simpl. destruct (touch_result E custom_dir) as [e|] eqn:Hcustom.
  { exists e, [EvTouch in_dir; EvTouch out_dir]. split; [now rewrite <- app_assoc|].
    intros c [H|[H|[]]]; discriminate. }
  exfalso. apply Hno. now repeat split.
Qed.

End Start.

Lemma touches_succeed_dec E : {touches_succeed E} + {~ touches_succeed E}.
Proof.
  unfold touches_succeed.
  destruct (touch_result E (input_dir (rconfig E))); [right; intros (H & _); discriminate|].
  destruct (touch_result E (output_dir (rconfig E))); [right; intros (_ & H & _); discriminate|].
  destruct (touch_result E (user_dir (rconfig E))); [right; intros (_ & _ & H); discriminate|].
  left. now repeat split.
Qed.

Lemma dirs_after_app ds a b : dirs_after ds (a ++ b) = dirs_after (dirs_after ds a) b.
Proof.
  revert ds. induction a as [|[d|c] a IH]; intros ds; simpl; [reflexivity| |]; apply IH.
Qed.

Lemma dirs_after_mono ds tr : ds ⊆ dirs_after ds tr.
Proof.
  revert ds. induction tr as [|[d|c] tr IH]; intros ds; simpl; [set_solver| |apply IH].
  specialize (IH ({[d]} ∪ ds)). set_solver.
Qed.

(** *** The interrupt guard of [_start_container] (C1) *)

(** C1, as stated, fails when the blocking run returns normally: the
    container was started with [--rm], the guard issues no [docker kill]
    and the function returns.  Here every command succeeds; the run
    returns and the only command issued is the [docker run]. *)
Lemma start_container_normal_return_no_kill :
  let res := _start_container (sample_env all_succeed no_touch_failure) self0 "-s only" w0 in
  fst res = Ret tt
  /\ trace (snd res) =
       [EvTouch "/data/in"; EvTouch "/data/out"; EvTouch "/data/user";
        EvCmd ("docker run --name rf.b1.test.03bf --shm-size=1g -v /data/in:/input "
               +:+ "-v /data/out/rf.b1.test:/output -v /data/user:/custom "
               +:+ "--rm automlbenchmark/rf:stable -s only "
               +:+ "-i /input -o /output -u /custom -s skip -Xrun_mode=docker --session=")]
  /\ ~ In (EvCmd "docker kill rf.b1.test.03bf") (trace (snd res)).
Proof.
  split; [vm_compute; reflexivity|]. split; [vm_compute; reflexivity|].
  vm_compute. intros [H|[H|[H|[H|[]]]]]; discriminate.
Qed.

(** C1 (amended).  Once the three directories exist, [_start_container]
    issues the [docker run] command.  If that command returns, the
    function returns and nothing else is issued.  If it raises [e] (any
    exception, [KeyboardInterrupt] included), [docker kill] on the
    instance name is issued exactly once, right after it, and provided
    the kill returns or fails with an [Exception], the error raised is
    the original [e]. *)
Theorem start_container_guard E self script_params w :
  touches_succeed E ->
  let run := run_command E self script_params in
  let kill := "docker kill " +:+ inst_name E self script_params in
  let touched := [EvTouch (input_dir (rconfig E)); EvTouch (output_dir (rconfig E));
                  EvTouch (user_dir (rconfig E))] in
  let res := _start_container E self script_params w in
  match cmd_result E run with
  | Ret _ => fst res = Ret tt /\ trace (snd res) = trace w ++ touched ++ [EvCmd run]
  | Raise e =>
      trace (snd res) = trace w ++ touched ++ [EvCmd run; EvCmd kill]
      /\ ((forall e2, cmd_result E kill = Raise e2 -> is_Exception e2 = true) ->
          fst res = Raise e)
  end.
Proof.
  intros Hok. cbv zeta. rewrite (start_container_steps E self script_params w Hok).
  destruct (cmd_result E (run_command E self script_params)) as [o|e]; simpl.
  - split; reflexivity.
  - split; [reflexivity|]. intros Hkill.
    destruct (cmd_result E ("docker kill " +:+ inst_name E self script_params)) as [o2|e2];
      [reflexivity|].
    now rewrite (Hkill e2 eq_refl).
Qed.

Lemma start_container_guard_witness :
  let E := sample_env interrupted no_touch_failure in
  let res := _start_container E self0 "-s only" w0 in
  trace (snd res) = trace w0 ++
    [EvTouch "/data/in"; EvTouch "/data/out"; EvTouch "/data/user"] ++
    [EvCmd (run_command E self0 "-s only"); EvCmd ("docker kill " +:+ inst_name E self0 "-s only")]
  /\ fst res = Raise (Exn KeyboardInterrupt "").
Proof.
  pose proof (start_container_guard (sample_env interrupted no_touch_failure) self0 "-s only" w0) as H.
  assert (Hok : touches_succeed (sample_env interrupted no_touch_failure))
    by (repeat split).
  specialize (H Hok). cbv zeta in H.
  change (cmd_result (sample_env interrupted no_touch_failure)
            (run_command (sample_env interrupted no_touch_failure) self0 "-s only"))
    with (@Raise (string * string) (Exn KeyboardInterrupt "")) in H.
  destruct H as [Htr Hres]. split; [exact Htr|].
  apply Hres. intros e2 He2. vm_compute in He2. inversion He2. reflexivity.
Defined.

(** A second interrupt while the kill is running is not an [Exception]:
    it is not swallowed and it is what [_start_container] raises. *)
Lemma start_container_kill_interrupted E self script_params w e e2 :
  touches_succeed E ->
  cmd_result E (run_command E self script_params) = Raise e ->
  cmd_result E ("docker kill " +:+ inst_name E self script_params) = Raise e2 ->
  is_Exception e2 = false ->
  fst (_start_container E self script_params w) = Raise e2.
Proof.
  intros Hok Hrun Hkill He2.
  rewrite (start_container_steps E self script_params w Hok), Hrun, Hkill, He2.
  reflexivity.
Qed.

(** *** The instance name *)

(** Line 53 on the sample setting; [str_digest] and [str_sanitize] are the
    stand-ins of the sample. *)
Example inst_name_sample :
  inst_name (sample_env all_succeed no_touch_failure) self0 "-s only" = "rf.b1.test.03bf".
Proof. reflexivity. Qed.

(** *** The mount directories (C8) *)

(** C8, as stated, fails for the output directory: the directory made to
    exist is the configured [output_dir], while the volume bound at
    [/output] is the session directory [self.output_dirs.session], which
    [_start_container] does not create. *)
Lemma start_container_binds_session_dir :
  let res := _start_container (sample_env all_succeed no_touch_failure) self0 "-s only" w0 in
  exists pre c,
    trace (snd res) = pre ++ [EvCmd c]
    /\ In "/data/out/rf.b1.test:/output" (words c)
    /\ ~ In "/data/out:/output" (words c)
    /\ "/data/out" ∈ dirs_after ∅ pre
    /\ "/data/out/rf.b1.test" ∉ dirs_after ∅ pre.
Proof.
  eexists [EvTouch "/data/in"; EvTouch "/data/out"; EvTouch "/data/user"], _.
  split; [vm_compute; reflexivity|].
  split; [vm_compute; tauto|].
  split; [vm_compute; intuition discriminate|].
  split; simpl; [set_solver|].
  rewrite !elem_of_union, !elem_of_singleton. intros [H|[H|[H|H]]]; discriminate.
Qed.

Lemma cmd_after_touches (t1 t2 t3 : string) (cmds : list string) pre c post :
  [EvTouch t1; EvTouch t2; EvTouch t3] ++ List.map EvCmd cmds = pre ++ EvCmd c :: post ->
  exists pre', pre = [EvTouch t1; EvTouch t2; EvTouch t3] ++ pre' /\ In c cmds.
Proof.
  destruct pre as [|e1 [|e2 [|e3 pre']]]; simpl; intros H; try discriminate.
  injection H as <- <- <- H. exists pre'. split; [reflexivity|].
  assert (Hin : In (EvCmd c) (List.map EvCmd cmds))
    by (rewrite H; apply in_or_app; right; now left).
  apply List.in_map_iff in Hin as (c' & [= ->] & Hc). exact Hc.
Qed.

(** Every command [_start_container] issues comes after the three touches
    and is the [docker run] or the [docker kill]. *)
Lemma start_container_commands E self script_params w pre c post :
  trace (snd (_start_container E self script_params w)) = trace w ++ pre ++ EvCmd c :: post ->
  exists pre',
    pre = [EvTouch (input_dir (rconfig E)); EvTouch (output_dir (rconfig E));
           EvTouch (user_dir (rconfig E))] ++ pre'
    /\ (c = run_command E self script_params
        \/ c = "docker kill " +:+ inst_name E self script_params).
Proof.
  intros Htr. destruct (touches_succeed_dec E) as [Hok|Hno].
  - rewrite (start_container_steps E self script_params w Hok) in Htr.
    destruct (cmd_result E (run_command E self script_params)); simpl in Htr;
      apply app_inv_head in Htr.
    + apply (cmd_after_touches _ _ _ [_]) in Htr as (pre' & -> & [<-|[]]). eauto.
    + apply (cmd_after_touches _ _ _ [_; _]) in Htr as (pre' & -> & [<-|[<-|[]]]); eauto.
  - exfalso.
    destruct (start_container_touch_fails E self script_params w Hno)
      as (e & tr & Heq & Hnocmd).
    rewrite Heq in Htr. simpl in Htr. apply app_inv_head in Htr.
    apply (Hnocmd c). rewrite Htr. apply in_or_app. right. now left.
Qed.

(** C8 (amended).  Whenever [_start_container] issues a command, the three
    configured directories (input, output, user) exist at that moment; and
    the [docker run] command binds the input directory at [/input], the
    session output directory at [/output] and the user directory at
    [/custom]. *)
Theorem start_container_mount_dirs E self script_params w pre c post :
  trace (snd (_start_container E self script_params w)) = trace w ++ pre ++ EvCmd c :: post ->
  (input_dir (rconfig E) ∈ dirs_after (dirs w) pre
   /\ output_dir (rconfig E) ∈ dirs_after (dirs w) pre
   /\ user_dir (rconfig E) ∈ dirs_after (dirs w) pre)
  /\ (c = run_command E self script_params
      \/ c = "docker kill " +:+ inst_name E self script_params)
  /\ exists opts rest,
       words (run_command E self script_params)
       = opts ++ ["-v"] ++ words (input_dir (rconfig E) +:+ ":/input")
              ++ ["-v"] ++ words (output_dirs_session self +:+ ":/output")
              ++ ["-v"] ++ words (user_dir (rconfig E) +:+ ":/custom") ++ rest.
Proof.
  intros Htr. apply start_container_commands in Htr as (pre' & -> & Hcmd).
  split; [|split; [exact Hcmd|]].
  - clear Hcmd. rewrite dirs_after_app.
    pose proof (dirs_after_mono
                  (dirs_after (dirs w)
                     [EvTouch (input_dir (rconfig E)); EvTouch (output_dir (rconfig E));
                      EvTouch (user_dir (rconfig E))]) pre') as Hsub.
    simpl in Hsub. repeat split; apply Hsub; set_solver.
  - rewrite run_command_words.
    exists (["docker"; "run"; "--name"] ++ words (inst_name E self script_params)
              ++ words (docker_run_extra_options (rconfig E))).
    eexists. rewrite <- !app_assoc. reflexivity.
Qed.

Lemma start_container_mount_dirs_witness :
  let E := sample_env interrupted no_touch_failure in
  ("/data/in" ∈ dirs_after ∅ [EvTouch "/data/in"; EvTouch "/data/out"; EvTouch "/data/user"]
   /\ "/data/out" ∈ dirs_after ∅ [EvTouch "/data/in"; EvTouch "/data/out"; EvTouch "/data/user"]
   /\ "/data/user" ∈ dirs_after ∅ [EvTouch "/data/in"; EvTouch "/data/out"; EvTouch "/data/user"])
  /\ (run_command E self0 "-s only" = run_command E self0 "-s only"
      \/ run_command E self0 "-s only" = "docker kill " +:+ inst_name E self0 "-s only")
  /\ exists opts rest,
       words (run_command E self0 "-s only")
       = opts ++ ["-v"] ++ words ("/data/in" +:+ ":/input")
              ++ ["-v"] ++ words ("/data/out/rf.b1.test" +:+ ":/output")
              ++ ["-v"] ++ words ("/data/user" +:+ ":/custom") ++ rest.
Proof.
  apply (start_container_mount_dirs (sample_env interrupted no_touch_failure) self0
           "-s only" w0
           [EvTouch "/data/in"; EvTouch "/data/out"; EvTouch "/data/user"]
           (run_command (sample_env interrupted no_touch_failure) self0 "-s only")
           [EvCmd "docker kill rf.b1.test.03bf"]).
  vm_compute. reflexivity.
Defined.

(** *** The image check (C6) *)

(** C6, as stated, fails for its last part: the local image query is made
    outside any [try], so when it fails the check raises.  Here the docker
    daemon cannot be reached. *)
Lemma image_exists_raises :
  fst (_image_exists (sample_env daemon_down no_touch_failure) self0
         "automlbenchmark/rf:stable" w0)
  = Raise (Exn CalledProcessError "Cannot connect to the Docker daemon").
Proof. reflexivity. Qed.

(** C6 (amended).  When the local image query returns, the check returns
    a truth value, which is true exactly when the stripped output of the
    query is a non-empty string of hexadecimal digits or, failing that, the
    pull succeeds; the pull is attempted only when the local query shows no
    image id, and a pull that fails with an [Exception] yields false.  When
    the local image query itself raises, the check raises that error, and
    the query is the only command it has issued. *)
Theorem image_exists_spec E self image w :
  (forall out err,
      cmd_result E ("docker images -q " +:+ image) = Ret (out, err) ->
      (forall e, cmd_result E ("docker pull " +:+ image) = Raise e -> is_Exception e = true) ->
      let res := _image_exists E self image w in
      exists b,
        fst res = Ret b
        /\ (b = true <-> hex_id (strip out) = true
                         \/ exists r, cmd_result E ("docker pull " +:+ image) = Ret r)
        /\ trace (snd res)
           = trace w ++ EvCmd ("docker images -q " +:+ image)
               :: (if hex_id (strip out) then [] else [EvCmd ("docker pull " +:+ image)]))
  /\ (forall e,
        cmd_result E ("docker images -q " +:+ image) = Raise e ->
        fst (_image_exists E self image w) = Raise e
        /\ trace (snd (_image_exists E self image w))
           = trace w ++ [EvCmd ("docker images -q " +:+ image)]).
Proof.
  split.
  - intros out err Hquery Hpull. cbv zeta.
    unfold _image_exists, bind, try_except, run_cmd, ret. rewrite Hquery. simpl.
    rewrite re_match_hex_strip.
    destruct (hex_id (strip out)) eqn:Hhex; simpl.
    + exists true. repeat split; auto.
    + destruct (cmd_result E ("docker pull " +:+ image)) as [r|e] eqn:Hp; simpl.
      * exists true. rewrite <- app_assoc. repeat split; eauto.
      * rewrite (Hpull e eq_refl). simpl. exists false. rewrite <- app_assoc.
        repeat split; [discriminate|]. intros [H|[r H]]; discriminate.
  - intros e Hquery. unfold _image_exists, bind, run_cmd. rewrite Hquery. now split.
Qed.

Lemma image_exists_spec_witness :
  (exists b,
      fst (_image_exists (sample_env no_image no_touch_failure) self0
             "automlbenchmark/rf:stable" w0)
      = Ret b
      /\ (b = true <-> hex_id (strip "") = true
                       \/ exists r, no_image "docker pull automlbenchmark/rf:stable" = Ret r)
      /\ trace (snd (_image_exists (sample_env no_image no_touch_failure) self0
                       "automlbenchmark/rf:stable" w0))
         = [EvCmd "docker images -q automlbenchmark/rf:stable";
            EvCmd "docker pull automlbenchmark/rf:stable"])
  /\ (fst (_image_exists (sample_env daemon_down no_touch_failure) self0
              "automlbenchmark/rf:stable" w0)
      = Raise (Exn CalledProcessError "Cannot connect to the Docker daemon")
      /\ trace (snd (_image_exists (sample_env daemon_down no_touch_failure) self0
                       "automlbenchmark/rf:stable" w0))
         = [EvCmd "docker images -q automlbenchmark/rf:stable"]).
Proof.
  split.
  - apply (proj1 (image_exists_spec (sample_env no_image no_touch_failure) self0
                    "automlbenchmark/rf:stable" w0) "" "").
    + reflexivity.
    + intros e He. vm_compute in He. inversion He. reflexivity.
  - apply (proj2 (image_exists_spec (sample_env daemon_down no_touch_failure) self0
                    "automlbenchmark/rf:stable" w0)).
    reflexivity.
Defined.

Example image_exists_local :
  fst (_image_exists
         (sample_env (fun _ => Ret (String "4" (String "f" (String newline "")), ""))
                     no_touch_failure) self0 "img" w0) = Ret true.
Proof. reflexivity. Qed.

(** *** The build command (C7) *)

(** C7.  [_run_container_build_command] issues one command, whose words
    are [docker build], then [--no-cache] when the cache is disabled and
    nothing when it is enabled, then [-t] with the image name, [-f] with the
    path of the build script ([Dockerfile] in the framework directory) and
    the build context [.]. *)
Theorem build_command_cache_flag E self image cache w :
  let res := _run_container_build_command E self image cache w in
  exists cmd,
    trace (snd res) = trace w ++ [EvCmd cmd]
    /\ words cmd
       = ["docker"; "build"] ++ (if cache then [] else ["--no-cache"])
           ++ ["-t"] ++ words image
           ++ ["-f"] ++ words (path_join (_framework_dir self) "Dockerfile") ++ ["."].
Proof.
  cbv zeta. exists (build_command self image cache). split.
  - unfold _run_container_build_command, bind, run_cmd, ret. simpl.
    now destruct (cmd_result E (build_command self image cache)).
  - apply build_command_words.
Qed.

Example build_command_no_cache :
  build_command self0 "automlbenchmark/rf:stable" false
  = "docker build --no-cache -t automlbenchmark/rf:stable -f /bench/frameworks/rf/Dockerfile .".
Proof. reflexivity. Qed.

Example build_command_cache :
  words (build_command self0 "automlbenchmark/rf:stable" true)
  = ["docker"; "build"; "-t"; "automlbenchmark/rf:stable"; "-f";
     "/bench/frameworks/rf/Dockerfile"; "."].
Proof. reflexivity. Qed.

End DockerFacts.

(** ** Properties of the adapters *)

Module AdapterFacts.
Import Adapter AdapterSample AdapterSpec.

Lemma eqb_train s : s <> "train" -> String.eqb s "train" = false.
Proof. intros H. now apply String.eqb_neq. Qed.

Lemma eqb_predict s : s <> "predict" -> String.eqb s "predict" = false.
Proof. intros H. now apply String.eqb_neq. Qed.

Lemma new_dummy E (config : TaskConfig) w :
  (if String.eqb (type_ config) "classification"
   then new E "DummyClassifier" [("strategy", PStr "prior")] ∅
   else new E "DummyRegressor" [("strategy", PStr "median")] ∅) w
  = match new_result E (dummy_class config) (dummy_kwargs config) with
    | Some e => (Raise e, w)
    | None => (Ret (Estimator (dummy_class config) (dummy_kwargs config) None), w)
    end.
Proof.
  unfold dummy_class, dummy_kwargs, new, bind, lift, ret.
  destruct (String.eqb (type_ config) "classification"); simpl;
    rewrite lookup_empty; simpl;
    match goal with |- context [new_result ?E ?c ?k] => destruct (new_result E c k) end;
    reflexivity.
Qed.

(** *** An unknown task type (C2) *)

(** C2.  When [task_type] is neither ["train"] nor ["predict"] the adapter
    raises and leaves the world as it found it: no fit, no predict, no
    load.  The error is the [ValueError] of the final [else]; in the
    constant predictor, which builds its estimator object first, this is so
    once that constructor call has returned. *)
Theorem unknown_task_type_fails_fast E dataset config w :
  task_type config <> "train" ->
  task_type config <> "predict" ->
  let unknown := Exn ValueError ("Unknown task_type: " +:+ task_type config) in
  RandomForest.run E dataset config w = (Raise unknown, w)
  /\ flaml.run E dataset config w = (Raise unknown, w)
  /\ exists e, constantpredictor.run E dataset config w = (Raise e, w)
               /\ (new_result E (dummy_class config) (dummy_kwargs config) = None
                   -> e = unknown).
Proof.
  intros Htrain Hpredict unknown. repeat split.
  - unfold RandomForest.run, bind. now rewrite (eqb_train _ Htrain), (eqb_predict _ Hpredict).
  - unfold flaml.run, bind. now rewrite (eqb_train _ Htrain), (eqb_predict _ Hpredict).
  - unfold constantpredictor.run, bind at 1. rewrite new_dummy.
    destruct (new_result E (dummy_class config) (dummy_kwargs config)) as [e|].
    + exists e. split; [reflexivity|discriminate].
    + exists unknown. split; [|reflexivity].
      unfold bind. now rewrite (eqb_train _ Htrain), (eqb_predict _ Hpredict).
Qed.

Lemma unknown_task_type_fails_fast_witness :
  let config := task "bogus" None in
  let unknown := Exn ValueError "Unknown task_type: bogus" in
  RandomForest.run (sample_env disk_ok) ds0 config w0 = (Raise unknown, w0)
  /\ flaml.run (sample_env disk_ok) ds0 config w0 = (Raise unknown, w0)
  /\ exists e, constantpredictor.run (sample_env disk_ok) ds0 config w0 = (Raise e, w0)
               /\ (new_result (sample_env disk_ok) (dummy_class config) (dummy_kwargs config) = None
                   -> e = unknown).
Proof.
  apply (unknown_task_type_fails_fast (sample_env disk_ok) ds0 (task "bogus" None) w0);
    discriminate.
Defined.

(** *** Predicting without a persisted model (C9) *)

(** C9.  With [task_type = "predict"] and no persisted model to be found
    from [model_path], the adapter raises the load error and leaves the
    world as it found it: nothing is fitted and nothing is predicted.  (In
    the constant predictor the estimator object is built first; the load
    error is what is raised once that constructor call has returned.) *)
Theorem predict_without_model_fails_fast E dataset config w :
  task_type config = "predict" ->
  model_missing config w ->
  RandomForest.run E dataset config w = (Raise (load_error config), w)
  /\ flaml.run E dataset config w = (Raise (load_error config), w)
  /\ exists e, constantpredictor.run E dataset config w = (Raise e, w)
               /\ (new_result E (dummy_class config) (dummy_kwargs config) = None
                   -> e = load_error config).
Proof.
  intros Hpredict Hmissing.
  assert (Hload : forall A (k : estimator -> M world A),
             bind (lift (os_path_join (model_path config) "model.pkl"))
                  (fun path => bind (pickle_load_from path) k) w
             = (Raise (load_error config), w)).
  { intros A k. revert Hmissing.
    unfold model_missing, load_error, bind, lift, os_path_join, pickle_load_from.
    destruct (model_path config) as [dir|]; [|reflexivity]. now intros ->. }
  repeat split.
  - unfold RandomForest.run. unfold bind at 1. rewrite Hpredict. simpl. now rewrite Hload.
  - unfold flaml.run. unfold bind at 1. rewrite Hpredict. simpl. now rewrite Hload.
  - unfold constantpredictor.run, bind at 1. rewrite new_dummy.
    destruct (new_result E (dummy_class config) (dummy_kwargs config)) as [e|].
    + exists e. split; [reflexivity|discriminate].
    + exists (load_error config). split; [|reflexivity].
      unfold bind at 1. rewrite Hpredict. simpl. now rewrite Hload.
Qed.

Lemma predict_without_model_fails_fast_witness :
  RandomForest.run (sample_env disk_ok) ds0 (task "predict" None) w0
  = (Raise (Exn TypeError "expected str, bytes or os.PathLike object, not NoneType"), w0)
  /\ RandomForest.run (sample_env disk_ok) ds0 (task "predict" (Some "/models/none")) w_saved
     = (Raise (Exn FileNotFoundError "No such file or directory: '/models/none/model.pkl'"),
        w_saved).
Proof.
  split.
  - apply (predict_without_model_fails_fast (sample_env disk_ok) ds0 (task "predict" None) w0);
      [reflexivity|exact I].
  - apply (predict_without_model_fails_fast (sample_env disk_ok) ds0
             (task "predict" (Some "/models/none")) w_saved); [reflexivity|].
    vm_compute. reflexivity.
Defined.

(** *** Predicting with a persisted model (C4) *)

(** C4.  With [task_type = "predict"] and a pickled model [m] in
    [model.pkl] under [model_path], the adapter loads [m] from that file and
    predicts with it: the only effects are the load and the prediction
    calls on [m] (nothing is fitted, no file is written), and the result has
    [training_duration = 0.0], [model_path = None] and the predictions
    of [m]. *)
Theorem predict_uses_persisted_model E dataset config w dir m preds :
  task_type config = "predict" ->
  model_path config = Some dir ->
  files w !! Docker.path_join dir "model.pkl" = Some (Some m) ->
  predict_result E m (test_X dataset) = Ret preds ->
  (type_ config = "classification" ->
   exists p, predict_proba_result E m (test_X dataset) = Ret p) ->
  let calls :=
    EvLoad (Docker.path_join dir "model.pkl") :: EvPredict m (test_X dataset)
      :: (if String.eqb (type_ config) "classification"
          then [EvPredictProba m (test_X dataset)] else []) in
  (exists r, RandomForest.run E dataset config w = (Ret r, World (files w) (trace w ++ calls))
             /\ training_duration r = 0%float
             /\ result_model_path r = None
             /\ predictions r = preds)
  /\ (exists r, flaml.run E dataset config w = (Ret r, World (files w) (trace w ++ calls))
                /\ training_duration r = 0%float
                /\ result_model_path r = None
                /\ predictions r = preds).
Proof.
  intros Hpredict Hpath Hfile Hpred Hproba calls. subst calls.
  split.
  - unfold RandomForest.run, bind, lift, os_path_join, pickle_load_from, predict,
      predict_proba, log, ret.
    rewrite Hpredict, Hpath. simpl. rewrite Hfile. simpl. rewrite Hpred.
    destruct (String.eqb (type_ config) "classification") eqn:Hcls; simpl.
    + apply String.eqb_eq in Hcls. destruct (Hproba Hcls) as [p ->].
      rewrite <- !app_assoc. eexists. split; [reflexivity|auto].
    + rewrite <- !app_assoc. eexists. split; [reflexivity|auto].
  - unfold flaml.run, flaml.squeeze, bind, lift, os_path_join, pickle_load_from, predict,
      predict_proba, log, ret.
    rewrite Hpredict, Hpath. simpl. rewrite Hfile. simpl. rewrite Hpred.
    destruct (String.eqb (type_ config) "classification") eqn:Hcls; simpl.
    + apply String.eqb_eq in Hcls. destruct (Hproba Hcls) as [p ->].
      rewrite <- !app_assoc. eexists. split; [reflexivity|auto].
    + rewrite <- !app_assoc. eexists. split; [reflexivity|auto].
Qed.

Lemma predict_uses_persisted_model_witness :
  let E := sample_env disk_ok in
  let config := task "predict" (Some "/models/rf") in
  let calls := [EvLoad "/models/rf/model.pkl"; EvPredict saved_model [5; 6]%Z;
                EvPredictProba saved_model [5; 6]%Z] in
  (exists r, RandomForest.run E ds0 config w_saved = (Ret r, World (files w_saved) calls)
             /\ training_duration r = 0%float
             /\ result_model_path r = None
             /\ predictions r = [1]%Z)
  /\ (exists r, flaml.run E ds0 config w_saved = (Ret r, World (files w_saved) calls)
                /\ training_duration r = 0%float
                /\ result_model_path r = None
                /\ predictions r = [1]%Z).
Proof.
  apply (predict_uses_persisted_model (sample_env disk_ok) ds0
           (task "predict" (Some "/models/rf")) w_saved "/models/rf" saved_model [1]%Z).
  - reflexivity.
  - reflexivity.
  - vm_compute. reflexivity.
  - reflexivity.
  - intros _. eexists. reflexivity.
Defined.

(** *** Best-effort persistence (C3) *)

(** One step of an adapter at a time: what [bind] does when the first
    computation is a primitive whose answer is known. *)

Lemma bind_assoc {W A B C} (c : M W A) (k1 : A -> M W B) (k2 : B -> M W C) w :
  bind (bind c k1) k2 w = bind c (fun x => bind (k1 x) k2) w.
Proof. unfold bind. destruct (c w) as [[a|e] w']; reflexivity. Qed.

Lemma bind_ret {W A B} (a : A) (k : A -> M W B) w : bind (ret a) k w = k a w.
Proof. reflexivity. Qed.

Lemma bind_new_ok E cls named extra kw {A} (k : estimator -> M world A) w :
  call_kwargs named extra = Ret kw ->
  new_result E cls kw = None ->
  bind (new E cls named extra) k w = k (Estimator cls kw None) w.
Proof. intros Hkw Hnew. unfold new, bind, lift, ret. now rewrite Hkw, Hnew. Qed.

Lemma bind_fit_ok E e X y {A} (k : estimator -> M world A) w :
  fit_result E e X y ∅ = None ->
  bind (fit E e X y [] ∅) k w
  = k (Estimator (est_class e) (est_kwargs e) (Some (X, y, ∅)))
      (World (files w) (trace w ++ [EvFit e X y])).
Proof. intros Hfit. unfold fit, bind, lift, log, ret. simpl. now rewrite Hfit. Qed.

Lemma bind_mkdtemp_ok E dir {A} (k : string -> M world A) w :
  mkdtemp_result E = Ret dir ->
  bind (mkdtemp E) k w = k dir (World (files w) (trace w ++ [EvMkdtemp dir])).
Proof. intros Hdir. unfold mkdtemp, bind, lift, log, ret. now rewrite Hdir. Qed.

Lemma bind_predict_ok E m X preds {A} (k : array -> M world A) w :
  predict_result E m X = Ret preds ->
  bind (predict E m X) k w = k preds (World (files w) (trace w ++ [EvPredict m X])).
Proof. intros Hp. unfold predict, bind, lift, log, ret. now rewrite Hp. Qed.

Lemma bind_predict_proba_ok E m X p {A} (k : array -> M world A) w :
  predict_proba_result E m X = Ret p ->
  bind (predict_proba E m X) k w = k p (World (files w) (trace w ++ [EvPredictProba m X])).
Proof. intros Hp. unfold predict_proba, bind, lift, log, ret. now rewrite Hp. Qed.

Lemma bind_save_predictions_ok E file probs preds truth {A} (k : unit -> M world A) w :
  save_predictions_result E file = None ->
  bind (save_predictions E file probs preds truth) k w
  = k tt (World (files w) (trace w ++ [EvSavePredictions file preds probs truth])).
Proof. intros Hs. unfold save_predictions, bind, lift, log, ret. now rewrite Hs. Qed.

(** A failed attempt to persist is caught: the guarded block yields [None],
    and nothing but an incomplete file can be left behind. *)
Lemma bind_persist_failure E dir m e {A} (k : option string -> M world A) w :
  persist_error E (Docker.path_join dir "model.pkl") m = Some e ->
  exists w',
    bind (try_except
            (bind (pickle_dump_to E (Docker.path_join dir "model.pkl") m)
                  (fun _ => ret (Some dir)))
            (fun _ => true) (fun _ => ret None)) k w
    = k None w'
    /\ (w' = w \/ w' = World (<[Docker.path_join dir "model.pkl" := None]> (files w))
                            (trace w ++ [EvOpenWrite (Docker.path_join dir "model.pkl")])).
Proof.
  unfold persist_error, try_except, pickle_dump_to, bind, lift, ret, of_option_exn.
  destruct (open_write_result E (Docker.path_join dir "model.pkl")) as [e1|]; simpl.
  - intros _. exists w. split; [reflexivity|auto].
  - intros ->. simpl. eexists. split; [reflexivity|auto].
Qed.

(** In a train run in which the model has been fitted and a temporary
    directory obtained, an exception raised while the model is written
    ([open] or [pickle.dump]) is caught: provided the prediction calls
    succeed, the run returns normally, its result has [model_path = None]
    and the training duration of the fit, and the predictions are emitted
    (in the result for the random forest, through [save_predictions] for
    the constant predictor). *)
Lemma write_failure_is_caught E dataset config w dir :
  task_type config = "train" ->
  mkdtemp_result E = Ret dir ->
  (forall kw rf e preds,
      call_kwargs (rf_named config) (public_params (framework_params config)) = Ret kw ->
      new_result E (rf_class config) kw = None ->
      fit_result E (Estimator (rf_class config) kw None)
                 (train_X dataset) (train_y dataset) ∅ = None ->
      rf = Estimator (rf_class config) kw (Some (train_X dataset, train_y dataset, ∅)) ->
      persist_error E (Docker.path_join dir "model.pkl") rf = Some e ->
      predict_result E rf (test_X dataset) = Ret preds ->
      (type_ config = "classification" ->
       exists p, predict_proba_result E rf (test_X dataset) = Ret p) ->
      exists r w',
        RandomForest.run E dataset config w = (Ret r, w')
        /\ result_model_path r = None
        /\ predictions r = preds
        /\ training_duration r = duration E Training)
  /\ (forall predictor e preds,
        new_result E (dummy_class config) (dummy_kwargs config) = None ->
        fit_result E (Estimator (dummy_class config) (dummy_kwargs config) None)
                   (fst (dummy_train dataset config)) (snd (dummy_train dataset config)) ∅
        = None ->
        predictor = Estimator (dummy_class config) (dummy_kwargs config)
                              (Some (dummy_train dataset config, ∅)) ->
        persist_error E (Docker.path_join dir "model.pkl") predictor = Some e ->
        predict_result E predictor (fst (dummy_test dataset config)) = Ret preds ->
        (type_ config = "classification" ->
         exists p, predict_proba_result E predictor (fst (dummy_test dataset config)) = Ret p) ->
        save_predictions_result E (output_predictions_file config) = None ->
        exists r w' probs,
          constantpredictor.run E dataset config w = (Ret r, w')
          /\ summary_model_path r = None
          /\ summary_training_duration r = duration E Training
          /\ In (EvSavePredictions (output_predictions_file config) preds probs
                                   (snd (dummy_test dataset config)))
                (trace w')).
Proof.
  intros Htrain Hdir. split.
  - intros kw rf e preds Hkw Hnew Hfit -> Hpersist Hpred Hproba.
    unfold RandomForest.run. rewrite Htrain.
    change (String.eqb "train" "train") with true. cbv iota.
    fold (rf_class config). fold (rf_named config).
    rewrite bind_assoc, (bind_new_ok _ _ _ _ kw) by assumption.
    rewrite bind_assoc, bind_fit_ok by assumption.
    rewrite bind_assoc, (bind_mkdtemp_ok _ dir) by assumption.
    rewrite bind_assoc. cbn [est_class est_kwargs files trace].
    match goal with
    | |- context [bind (try_except _ _ _) ?k ?w1] =>
        destruct (bind_persist_failure E dir _ e k w1 Hpersist) as (w2 & -> & _)
    end.
    rewrite bind_ret. cbn [fst snd est_class est_kwargs].
    rewrite (bind_predict_ok _ _ _ preds) by assumption.
    destruct (String.eqb (type_ config) "classification") eqn:Hcls.
    + apply String.eqb_eq in Hcls. destruct (Hproba Hcls) as [p Hp].
      rewrite bind_assoc, (bind_predict_proba_ok _ _ _ p) by assumption.
      rewrite !bind_ret. eexists _, _. split; [reflexivity|auto].
    + rewrite !bind_ret. eexists _, _. split; [reflexivity|auto].
  - intros predictor e preds Hnew Hfit -> Hpersist Hpred Hproba Hsave.
    unfold constantpredictor.run. unfold bind at 1. rewrite new_dummy, Hnew.
    rewrite Htrain. change (String.eqb "train" "train") with true. cbv iota.
    fold (dummy_encode config).
    assert (Hfit' : fit_result E (Estimator (dummy_class config) (dummy_kwargs config) None)
                      (if dummy_encode config then train_X_enc dataset else train_X dataset)
                      (if dummy_encode config then train_y_enc dataset else train_y dataset)
                      ∅ = None)
      by (revert Hfit; unfold dummy_train; now destruct (dummy_encode config)).
    assert (Hrf : Some (dummy_train dataset config, (∅ : gmap string pyval))
                  = Some (if dummy_encode config then train_X_enc dataset else train_X dataset,
                          if dummy_encode config then train_y_enc dataset else train_y dataset,
                          ∅))
      by (unfold dummy_train; now destruct (dummy_encode config)).
    rewrite Hrf in Hpersist, Hpred, Hproba.
    assert (Htest : dummy_test dataset config
                    = (if dummy_encode config then test_X_enc dataset else test_X dataset,
                       if dummy_encode config then test_y_enc dataset else test_y dataset))
      by (unfold dummy_test; now destruct (dummy_encode config)).
    rewrite Htest in *. cbn [fst snd] in *.
    rewrite bind_assoc, bind_fit_ok by assumption.
    rewrite bind_assoc, (bind_mkdtemp_ok _ dir) by assumption.
    rewrite bind_assoc. cbn [est_class est_kwargs files trace].
    match goal with
    | |- context [bind (try_except _ _ _) ?k ?w1] =>
        destruct (bind_persist_failure E dir _ e k w1 Hpersist) as (w2 & -> & _)
    end.
    rewrite bind_ret. cbn [fst snd est_class est_kwargs].
    rewrite (bind_predict_ok _ _ _ preds) by assumption.
    destruct (String.eqb (type_ config) "classification") eqn:Hcls.
    + apply String.eqb_eq in Hcls. destruct (Hproba Hcls) as [p Hp].
      rewrite bind_assoc, (bind_predict_proba_ok _ _ _ p) by assumption.
      rewrite bind_ret, bind_save_predictions_ok by assumption.
      eexists _, _, _. split; [reflexivity|]. repeat split.
      cbn [trace]. apply in_or_app. right. now left.
    + rewrite bind_ret, bind_save_predictions_ok by assumption.
      eexists _, _, _. split; [reflexivity|]. repeat split.
      cbn [trace]. apply in_or_app. right. now left.
Qed.

(** The temporary directory is asked for before the guarded block: when
    [tempfile.mkdtemp] itself raises, nothing catches the exception.  The
    model has been fitted; nothing is predicted. *)
Lemma random_forest_mkdtemp_raises E dataset config w kw e :
  task_type config = "train" ->
  mkdtemp_result E = Raise e ->
  call_kwargs (rf_named config) (public_params (framework_params config)) = Ret kw ->
  new_result E (rf_class config) kw = None ->
  fit_result E (Estimator (rf_class config) kw None) (train_X dataset) (train_y dataset) ∅
  = None ->
  RandomForest.run E dataset config w
  = (Raise e,
     World (files w)
           (trace w ++ [EvFit (Estimator (rf_class config) kw None)
                              (train_X dataset) (train_y dataset)])).
Proof.
  intros Htrain Hdir Hkw Hnew Hfit.
  unfold RandomForest.run. rewrite Htrain.
  change (String.eqb "train" "train") with true. cbv iota.
  fold (rf_class config). fold (rf_named config).
  rewrite bind_assoc, (bind_new_ok _ _ _ _ kw) by assumption.
  rewrite bind_assoc, bind_fit_ok by assumption.
  unfold bind, mkdtemp, lift. now rewrite Hdir.
Qed.

Lemma constant_predictor_mkdtemp_raises E dataset config w e :
  task_type config = "train" ->
  mkdtemp_result E = Raise e ->
  new_result E (dummy_class config) (dummy_kwargs config) = None ->
  fit_result E (Estimator (dummy_class config) (dummy_kwargs config) None)
             (fst (dummy_train dataset config)) (snd (dummy_train dataset config)) ∅
  = None ->
  constantpredictor.run E dataset config w
  = (Raise e,
     World (files w)
           (trace w ++ [EvFit (Estimator (dummy_class config) (dummy_kwargs config) None)
                              (fst (dummy_train dataset config))
                              (snd (dummy_train dataset config))])).
Proof.
  intros Htrain Hdir Hnew Hfit.
  unfold constantpredictor.run. unfold bind at 1. rewrite new_dummy, Hnew.
  rewrite Htrain. change (String.eqb "train" "train") with true. cbv iota.
  fold (dummy_encode config).
  revert Hfit. unfold dummy_train. destruct (dummy_encode config); cbn [fst snd]; intros Hfit.
  - rewrite bind_assoc, bind_fit_ok by assumption.
    unfold bind, mkdtemp, lift. now rewrite Hdir.
  - rewrite bind_assoc, bind_fit_ok by assumption.
    unfold bind, mkdtemp, lift. now rewrite Hdir.
Qed.

(** C3, as stated, fails when what raises is the first step of saving the
    model: [tempfile.mkdtemp] is called before the [try].  Here no
    temporary directory can be had: the train run raises, in the random
    forest and in the constant predictor, and nothing has been predicted or
    saved. *)
Lemma persistence_failure_can_be_fatal :
  let e := Exn FileNotFoundError "No usable temporary directory found" in
  let quiet ev :=
    match ev with
    | EvPredict _ _ | EvPredictProba _ _ | EvSavePredictions _ _ _ _ => false
    | _ => true
    end in
  (fst (RandomForest.run no_tmp_env ds0 (task "train" None) w0) = Raise e
   /\ forallb quiet (trace (snd (RandomForest.run no_tmp_env ds0 (task "train" None) w0)))
      = true)
  /\ (fst (constantpredictor.run no_tmp_env ds0 (task "train" None) w0) = Raise e
      /\ forallb quiet
           (trace (snd (constantpredictor.run no_tmp_env ds0 (task "train" None) w0)))
         = true).
Proof. repeat split; vm_compute; reflexivity. Qed.

(** C3 (amended).  In a train run in which the model has been fitted:
    when [tempfile.mkdtemp] has given a directory, an exception raised
    while the model is written into it ([open] or [pickle.dump]) is caught,
    and provided the prediction calls succeed the run returns normally, its
    result has [model_path = None] and the training duration of the fit,
    and the predictions are emitted (in the result for the random forest,
    through [save_predictions] for the constant predictor); when
    [tempfile.mkdtemp] itself raises, the exception is not caught: the run
    raises it, and the fit is the only effect recorded, so that nothing has
    been predicted or saved. *)
Theorem persistence_failure_is_not_fatal E dataset config w :
  task_type config = "train" ->
  (forall dir,
      mkdtemp_result E = Ret dir ->
      (forall kw rf e preds,
          call_kwargs (rf_named config) (public_params (framework_params config)) = Ret kw ->
          new_result E (rf_class config) kw = None ->
          fit_result E (Estimator (rf_class config) kw None)
                     (train_X dataset) (train_y dataset) ∅ = None ->
          rf = Estimator (rf_class config) kw (Some (train_X dataset, train_y dataset, ∅)) ->
          persist_error E (Docker.path_join dir "model.pkl") rf = Some e ->
          predict_result E rf (test_X dataset) = Ret preds ->
          (type_ config = "classification" ->
           exists p, predict_proba_result E rf (test_X dataset) = Ret p) ->
          exists r w',
            RandomForest.run E dataset config w = (Ret r, w')
            /\ result_model_path r = None
            /\ predictions r = preds
            /\ training_duration r = duration E Training)
      /\ (forall predictor e preds,
            new_result E (dummy_class config) (dummy_kwargs config) = None ->
            fit_result E (Estimator (dummy_class config) (dummy_kwargs config) None)
                       (fst (dummy_train dataset config)) (snd (dummy_train dataset config)) ∅
            = None ->
            predictor = Estimator (dummy_class config) (dummy_kwargs config)
                                  (Some (dummy_train dataset config, ∅)) ->
            persist_error E (Docker.path_join dir "model.pkl") predictor = Some e ->
            predict_result E predictor (fst (dummy_test dataset config)) = Ret preds ->
            (type_ config = "classification" ->
             exists p, predict_proba_result E predictor (fst (dummy_test dataset config))
                       = Ret p) ->
            save_predictions_result E (output_predictions_file config) = None ->
            exists r w' probs,
              constantpredictor.run E dataset config w = (Ret r, w')
              /\ summary_model_path r = None
              /\ summary_training_duration r = duration E Training
              /\ In (EvSavePredictions (output_predictions_file config) preds probs
                                       (snd (dummy_test dataset config)))
                    (trace w')))
  /\ (forall e,
        mkdtemp_result E = Raise e ->
        (forall kw,
            call_kwargs (rf_named config) (public_params (framework_params config)) = Ret kw ->
            new_result E (rf_class config) kw = None ->
            fit_result E (Estimator (rf_class config) kw None)
                       (train_X dataset) (train_y dataset) ∅ = None ->
            fst (RandomForest.run E dataset config w) = Raise e
            /\ trace (snd (RandomForest.run E dataset config w))
               = trace w ++ [EvFit (Estimator (rf_class config) kw None)
                                   (train_X dataset) (train_y dataset)])
        /\ (new_result E (dummy_class config) (dummy_kwargs config) = None ->
            fit_result E (Estimator (dummy_class config) (dummy_kwargs config) None)
                       (fst (dummy_train dataset config)) (snd (dummy_train dataset config)) ∅
            = None ->
            fst (constantpredictor.run E dataset config w) = Raise e
            /\ trace (snd (constantpredictor.run E dataset config w))
               = trace w ++ [EvFit (Estimator (dummy_class config) (dummy_kwargs config) None)
                                   (fst (dummy_train dataset config))
                                   (snd (dummy_train dataset config))])).
Proof.
  intros Htrain. split.
  - intros dir Hdir. exact (write_failure_is_caught E dataset config w dir Htrain Hdir).
  - intros e Hdir. split.
    + intros kw Hkw Hnew Hfit.
      now rewrite (random_forest_mkdtemp_raises E dataset config w kw e).
    + intros Hnew Hfit.
      now rewrite (constant_predictor_mkdtemp_raises E dataset config w e).
Qed.

Lemma persistence_failure_is_not_fatal_witness :
  let config := task "train" None in
  ((exists r w',
       RandomForest.run (sample_env disk_full) ds0 config w0 = (Ret r, w')
       /\ result_model_path r = None
       /\ predictions r = [1]%Z
       /\ training_duration r = 12.5%float)
   /\ (exists r w' probs,
         constantpredictor.run (sample_env disk_full) ds0 config w0 = (Ret r, w')
         /\ summary_model_path r = None
         /\ summary_training_duration r = 12.5%float
         /\ In (EvSavePredictions "/output/predictions/rf.csv" [1]%Z probs [1]%Z) (trace w')))
  /\ (fst (constantpredictor.run no_tmp_env ds0 config w0)
      = Raise (Exn FileNotFoundError "No usable temporary directory found")
      /\ trace (snd (constantpredictor.run no_tmp_env ds0 config w0))
         = [EvFit (Estimator "DummyClassifier" (<["strategy" := PStr "prior"]> ∅) None)
                  [1; 2; 3; 4]%Z [0; 1]%Z]).
Proof.
  intros config. split.
  - destruct (proj1 (persistence_failure_is_not_fatal (sample_env disk_full) ds0
                       (task "train" None) w0 eq_refl) "/tmp/tmpk3x9" eq_refl)
      as [Hrf Hdummy].
    split.
    + eapply (Hrf _ _ (Exn OSError "No space left on device")); try reflexivity.
      intros _. eexists. reflexivity.
    + eapply (Hdummy _ (Exn OSError "No space left on device")); try reflexivity.
      intros _. eexists. reflexivity.
  - apply (proj2 (proj2 (persistence_failure_is_not_fatal no_tmp_env ds0
                           (task "train" None) w0 eq_refl)
                        (Exn FileNotFoundError "No usable temporary directory found")
                        eq_refl));
      reflexivity.
Defined.

(** When the model can be written, the train run reports the directory
    that holds it. *)
Example train_run_persists :
  exists r w',
    RandomForest.run (sample_env disk_ok) ds0 (task "train" None) w0 = (Ret r, w')
    /\ result_model_path r = Some "/tmp/tmpk3x9"
    /\ exists m, files w' !! "/tmp/tmpk3x9/model.pkl" = Some (Some m).
Proof. eexists _, _. split; [vm_compute; reflexivity|]. split; [reflexivity|]. eexists. reflexivity. Qed.

End AdapterFacts.

(** ** Further properties of the docker runner *)

Module DockerMoreFacts.
Import Docker DockerSample DockerSpec DockerMore MoreSamples.

(** *** The command line of [docker run] *)

(** X1.  Whatever parameters are forwarded, they are followed in the
    [docker run] command by the reserved arguments, so that [-s skip],
    [-Xrun_mode=docker] and the empty [--session=] come last and win over
    the same options given in [script_params]. *)
Theorem run_command_reserved_arguments_last E self script_params :
  (exists pre,
      words (run_command E self script_params)
      = pre ++ words script_params
            ++ ["-i"; "/input"; "-o"; "/output"; "-u"; "/custom"; "-s"; "skip";
                "-Xrun_mode=docker"; "--session="])
  /\ List.last (words (run_command E self script_params)) "" = "--session=".
Proof.
  rewrite DockerFacts.run_command_words. split.
  - exists (["docker"; "run"; "--name"] ++ words (inst_name E self script_params)
              ++ words (docker_run_extra_options (rconfig E))
              ++ ["-v"] ++ words (input_dir (rconfig E) +:+ ":/input")
              ++ ["-v"] ++ words (output_dirs_session self +:+ ":/output")
              ++ ["-v"] ++ words (user_dir (rconfig E) +:+ ":/custom")
              ++ ["--rm"] ++ words (image self)).
    repeat rewrite <- app_assoc. reflexivity.
  - repeat rewrite app_assoc.
    change ["-i"; "/input"; "-o"; "/output"; "-u"; "/custom"; "-s"; "skip";
            "-Xrun_mode=docker"; "--session="]
      with (["-i"; "/input"; "-o"; "/output"; "-u"; "/custom"; "-s"; "skip";
             "-Xrun_mode=docker"] ++ ["--session="]).
    rewrite app_assoc. apply List.last_last.
Qed.

(** *** Starting a container: failures *)

(** X2.  The three directories are touched in the order input, output,
    user, and the first one that cannot be made to exist ends
    [_start_container]: it raises the error of that directory, exactly the
    directories before it have been touched (in that order), and no command
    has been issued, so the container is never started. *)
Theorem start_container_touch_failure E self script_params w pre d post e :
  [input_dir (rconfig E); output_dir (rconfig E); user_dir (rconfig E)] = pre ++ d :: post ->
  (forall d', In d' pre -> touch_result E d' = None) ->
  touch_result E d = Some e ->
  _start_container E self script_params w
  = (Raise e, World (dirs_after (dirs w) (map EvTouch pre)) (trace w ++ map EvTouch pre)).
Proof.
  intros Hsplit Hpre Hd.
  unfold _start_container, for_each, bind, touch, ret.
  destruct pre as [|d1 [|d2 [|d3 pre]]]; simpl in Hsplit.
  - injection Hsplit as <- _. rewrite Hd. simpl. rewrite app_nil_r. now destruct w.
  - injection Hsplit as <- <- _.
    rewrite (Hpre (input_dir (rconfig E))) by now left.
    simpl. now rewrite Hd.
  - injection Hsplit as <- <- <- _.
    rewrite (Hpre (input_dir (rconfig E))) by now left.
    simpl. rewrite (Hpre (output_dir (rconfig E))) by (right; now left).
    simpl. rewrite Hd. now rewrite <- app_assoc.
  - injection Hsplit as _ _ _ Hnil. now destruct pre.
Qed.

Lemma start_container_touch_failure_witness :
  _start_container (sample_env all_succeed out_dir_denied) self0 "-s only" w0
  = (Raise (Exn OSError "Permission denied"),
     World (dirs_after ∅ [EvTouch "/data/in"]) [EvTouch "/data/in"]).
Proof.
  apply (start_container_touch_failure (sample_env all_succeed out_dir_denied) self0
           "-s only" w0 ["/data/in"] "/data/out" ["/data/user"]
           (Exn OSError "Permission denied")).
  - reflexivity.
  - intros d' [<-|[]]. reflexivity.
  - reflexivity.
Defined.

(** X3.  The handler around [docker kill] is [except Exception]: an
    interrupt that arrives while the kill is running is not swallowed.  The
    run command and the kill have both been issued, and what
    [_start_container] raises is the interrupt, not the error of the run. *)
Theorem start_container_second_interrupt E self script_params w e e2 :
  touches_succeed E ->
  cmd_result E (run_command E self script_params) = Raise e ->
  cmd_result E ("docker kill " +:+ inst_name E self script_params) = Raise e2 ->
  is_Exception e2 = false ->
  fst (_start_container E self script_params w) = Raise e2
  /\ exists tr,
       trace (snd (_start_container E self script_params w)) = trace w ++ tr
       /\ commands tr = [run_command E self script_params;
                         "docker kill " +:+ inst_name E self script_params].
Proof.
  intros Hok Hrun Hkill He2.
  rewrite (DockerFacts.start_container_steps E self script_params w Hok), Hrun, Hkill, He2.
  split; [reflexivity|]. eexists. split; reflexivity.
Qed.

Lemma start_container_second_interrupt_witness :
  let E := sample_env kill_interrupted no_touch_failure in
  fst (_start_container E self0 "-s only" w0) = Raise (Exn KeyboardInterrupt "")
  /\ exists tr,
       trace (snd (_start_container E self0 "-s only" w0)) = trace w0 ++ tr
       /\ commands tr = [run_command E self0 "-s only";
                         "docker kill " +:+ inst_name E self0 "-s only"].
Proof.
  apply (start_container_second_interrupt (sample_env kill_interrupted no_touch_failure)
           self0 "-s only" w0 (Exn CalledProcessError "exit status 125")
           (Exn KeyboardInterrupt "")).
  - repeat split.
  - reflexivity.
  - reflexivity.
  - reflexivity.
Defined.

(** *** The image check: edge cases *)

Lemma hex_digit_not_space c : is_hex_digit c = true -> isspace c = false.
Proof. destruct c as [[] [] [] [] [] [] [] []]; vm_compute; intros H; congruence. Qed.

Lemma all_hex_rstrip s : all_hex s = true -> rstrip s = s.
Proof.
  induction s as [|c s IH]; simpl; [reflexivity|].
  intros H. apply andb_prop in H as [Hc Hs]. rewrite (IH Hs).
  destruct s; [|reflexivity]. now rewrite (hex_digit_not_space c Hc).
Qed.

Lemma all_space_rstrip s : all_space s = true -> rstrip s = "".
Proof.
  induction s as [|c s IH]; simpl; [reflexivity|].
  intros H. apply andb_prop in H as [Hc Hs]. now rewrite (IH Hs), Hc.
Qed.

Lemma rstrip_app_space a b : all_space b = true -> rstrip (a +:+ b) = rstrip a.
Proof.
  intros Hb. induction a as [|c a IH].
  - rewrite DockerFacts.append_nil. now apply all_space_rstrip.
  - rewrite DockerFacts.append_cons. simpl. now rewrite IH.
Qed.

Lemma rstrip_app_keep a b : rstrip b <> "" -> rstrip (a +:+ b) = a +:+ rstrip b.
Proof.
  intros Hb. induction a as [|c a IH].
  - now rewrite !DockerFacts.append_nil.
  - rewrite !DockerFacts.append_cons. simpl. rewrite IH.
    destruct (a +:+ rstrip b) eqn:Heq; [|reflexivity].
    destruct a; [|discriminate]. rewrite DockerFacts.append_nil in Heq. contradiction.
Qed.

Lemma lstrip_app_space a b : all_space a = true -> lstrip (a +:+ b) = lstrip b.
Proof.
  induction a as [|c a IH]; [reflexivity|].
  rewrite DockerFacts.append_cons. simpl. intros H. apply andb_prop in H as [Hc Ha].
  rewrite Hc. now apply IH.
Qed.

(** White space around an image id is stripped away. *)
Lemma strip_around_id pre id post :
  all_space pre = true -> all_space post = true -> hex_id id = true ->
  strip (pre +:+ id +:+ post) = id.
Proof.
  intros Hpre Hpost Hid. unfold hex_id in Hid. apply andb_prop in Hid as [Hne Hhex].
  unfold strip.
  assert (Hr : rstrip (id +:+ post) = id)
    by (rewrite rstrip_app_space by assumption; now apply all_hex_rstrip).
  rewrite rstrip_app_keep by (rewrite Hr; intros ->; discriminate).
  rewrite Hr, lstrip_app_space by assumption.
  destruct id as [|c id]; [discriminate|]. simpl in *.
  apply andb_prop in Hhex as [Hc _]. now rewrite (hex_digit_not_space c Hc).
Qed.

(** X5.  An image id printed by the local query is recognised whatever
    white space (blanks, newlines) surrounds it: the check returns true and
    no pull is attempted. *)
Theorem image_exists_ignores_surrounding_space E self image w pre id post err :
  all_space pre = true ->
  all_space post = true ->
  hex_id id = true ->
  cmd_result E ("docker images -q " +:+ image) = Ret (pre +:+ id +:+ post, err) ->
  _image_exists E self image w
  = (Ret true, World (dirs w) (trace w ++ [EvCmd ("docker images -q " +:+ image)])).
Proof.
  intros Hpre Hpost Hid Hquery.
  unfold _image_exists, bind, run_cmd, ret. rewrite Hquery. simpl.
  rewrite DockerFacts.re_match_hex_strip, (strip_around_id pre id post) by assumption.
  now rewrite Hid.
Qed.

Lemma image_exists_ignores_surrounding_space_witness :
  _image_exists (sample_env image_listed no_touch_failure) self0 "automlbenchmark/rf:stable" w0
  = (Ret true, World ∅ [EvCmd "docker images -q automlbenchmark/rf:stable"]).
Proof.
  apply (image_exists_ignores_surrounding_space (sample_env image_listed no_touch_failure)
           self0 "automlbenchmark/rf:stable" w0
           (String newline " ") "4f1a9c" (String newline "") "");
    reflexivity.
Defined.

(** X6.  The handler around [docker pull] is [except Exception]: when no
    image is found locally and the pull is interrupted, the interrupt is not
    turned into the answer false, it is raised. *)
Theorem image_exists_pull_interrupted E self image w out err e :
  cmd_result E ("docker images -q " +:+ image) = Ret (out, err) ->
  hex_id (strip out) = false ->
  cmd_result E ("docker pull " +:+ image) = Raise e ->
  is_Exception e = false ->
  fst (_image_exists E self image w) = Raise e.
Proof.
  intros Hquery Hhex Hpull He.
  unfold _image_exists, bind, try_except, run_cmd, ret. rewrite Hquery. simpl.
  rewrite DockerFacts.re_match_hex_strip, Hhex, Hpull. simpl. now rewrite He.
Qed.

Lemma image_exists_pull_interrupted_witness :
  fst (_image_exists (sample_env pull_interrupted no_touch_failure) self0
         "automlbenchmark/rf:stable" w0)
  = Raise (Exn KeyboardInterrupt "").
Proof.
  apply (image_exists_pull_interrupted (sample_env pull_interrupted no_touch_failure) self0
           "automlbenchmark/rf:stable" w0 "" "" (Exn KeyboardInterrupt ""));
    reflexivity.
Defined.

(** X7.  Whatever the answers, [_image_exists] issues the local query and
    at most the pull after it, never any other command, and it leaves the
    directories as they are. *)
Theorem image_exists_commands E self image w :
  dirs (snd (_image_exists E self image w)) = dirs w
  /\ (trace (snd (_image_exists E self image w))
      = trace w ++ [EvCmd ("docker images -q " +:+ image)]
      \/ trace (snd (_image_exists E self image w))
         = trace w ++ [EvCmd ("docker images -q " +:+ image);
                       EvCmd ("docker pull " +:+ image)]).
Proof.
  unfold _image_exists, bind, try_except, run_cmd, ret.
  destruct (cmd_result E ("docker images -q " +:+ image)) as [[out err]|e]; simpl; [|auto].
  destruct (re_match_hex (strip out)); simpl; [auto|].
  destruct (cmd_result E ("docker pull " +:+ image)) as [r|e]; simpl.
  - rewrite <- app_assoc. auto.
  - destruct (is_Exception e); simpl; rewrite <- app_assoc; auto.
Qed.

End DockerMoreFacts.

(** ** Further properties of the adapters *)

Module AdapterMoreFacts.
Import Adapter AdapterSample AdapterSpec AdapterSpecMore.

(** *** What a computation keeps, and what it yields *)

Global Instance extends_preorder allowed : PreOrder (extends allowed).
Proof.
  split.
  - intros w. exists []. now rewrite app_nil_r.
  - intros w1 w2 w3 (evs1 & H1 & Ha1) (evs2 & H2 & Ha2).
    exists (evs1 ++ evs2). rewrite H2, H1, <- app_assoc. split; [reflexivity|].
    rewrite forallb_app. now rewrite Ha1, Ha2.
Qed.

Global Instance same_files_preorder : PreOrder same_files.
Proof.
  split.
  - intros w. reflexivity.
  - intros w1 w2 w3 H1 H2. unfold same_files in *. congruence.
Qed.

Section Frame.

Context {R : world -> world -> Prop} `{!PreOrder R}.

Lemma keeps_ret {A} (a : A) : keeps R (ret a).
Proof. intros w. simpl. reflexivity. Qed.

Lemma keeps_raise {A} (e : exn) : keeps R (@raise world A e).
Proof. intros w. simpl. reflexivity. Qed.

Lemma keeps_lift {A} (o : outcome A) : keeps R (lift o).
Proof. intros w. simpl. reflexivity. Qed.

(** When [c] can only return values that satisfy [Q], the continuation is
    only to be examined on those. *)
Lemma keeps_bind_with {A B} (Q : A -> Prop) (c : M world A) (k : A -> M world B) :
  yields Q c -> keeps R c -> (forall a, Q a -> keeps R (k a)) -> keeps R (bind c k).
Proof.
  intros HQ Hc Hk w. unfold bind.
  specialize (Hc w). specialize (HQ w).
  destruct (c w) as [[a|e] w1]; simpl in *; [|exact Hc].
  transitivity w1; [exact Hc|]. apply Hk. now apply HQ.
Qed.

Lemma keeps_bind {A B} (c : M world A) (k : A -> M world B) :
  keeps R c -> (forall a, keeps R (k a)) -> keeps R (bind c k).
Proof.
  intros Hc Hk. apply (keeps_bind_with (fun _ => True)); [easy|exact Hc|auto].
Qed.

Lemma keeps_try_except {A} (body : M world A) catch handler :
  keeps R body -> (forall e, keeps R (handler e)) -> keeps R (try_except body catch handler).
Proof.
  intros Hb Hh w. unfold try_except.
  specialize (Hb w). destruct (body w) as [[a|e] w1]; simpl in *; [exact Hb|].
  destruct (catch e); simpl; [|exact Hb].
  transitivity w1; [exact Hb|apply Hh].
Qed.

End Frame.

Lemma keeps_weaken {A} (R R' : world -> world -> Prop) (c : M world A) :
  (forall w w', R w w' -> R' w w') -> keeps R c -> keeps R' c.
Proof. intros Himp Hc w. apply Himp, Hc. Qed.

Lemma yields_ret {A} (Q : A -> Prop) (a : A) : Q a -> yields Q (ret a).
Proof. intros Ha w a' [= <-]. exact Ha. Qed.

Lemma yields_raise {A} (Q : A -> Prop) (e : exn) : yields Q (raise e).
Proof. intros w a. discriminate. Qed.

Lemma yields_bind_with {A B} (P : A -> Prop) (Q : B -> Prop) (c : M world A)
      (k : A -> M world B) :
  yields P c -> (forall a, P a -> yields Q (k a)) -> yields Q (bind c k).
Proof.
  intros HP Hk w b. unfold bind. specialize (HP w).
  destruct (c w) as [[a|e] w1]; simpl in *; [|discriminate].
  apply Hk. now apply HP.
Qed.

Lemma yields_bind {A B} (Q : B -> Prop) (c : M world A) (k : A -> M world B) :
  (forall a, yields Q (k a)) -> yields Q (bind c k).
Proof. intros Hk. apply (yields_bind_with (fun _ => True)); [easy|auto]. Qed.

(** *** The primitives *)

Lemma keeps_log allowed ev : allowed ev = true -> keeps (extends allowed) (log ev).
Proof. intros Hev w. exists [ev]. simpl. now rewrite Hev. Qed.

Lemma keeps_log_files ev : keeps same_files (log ev).
Proof. intros w. reflexivity. Qed.

Lemma keeps_new `{!PreOrder R} E cls named extra : keeps R (new E cls named extra).
Proof.
  unfold new. apply keeps_bind; [apply keeps_lift|intros kw].
  apply keeps_bind; [apply keeps_lift|intros _]. apply keeps_ret.
Qed.

Lemma keeps_fit allowed E e X y named extra :
  allowed (EvFit e X y) = true -> keeps (extends allowed) (fit E e X y named extra).
Proof.
  intros Hev. unfold fit. apply keeps_bind; [apply keeps_lift|intros kw].
  apply keeps_bind; [now apply keeps_log|intros _].
  apply keeps_bind; [apply keeps_lift|intros _]. apply keeps_ret.
Qed.

Lemma keeps_fit_files E e X y named extra : keeps same_files (fit E e X y named extra).
Proof.
  unfold fit. apply keeps_bind; [apply keeps_lift|intros kw].
  apply keeps_bind; [apply keeps_log_files|intros _].
  apply keeps_bind; [apply keeps_lift|intros _]. apply keeps_ret.
Qed.

Lemma keeps_predict allowed E e X :
  allowed (EvPredict e X) = true -> keeps (extends allowed) (predict E e X).
Proof.
  intros Hev. unfold predict. apply keeps_bind; [now apply keeps_log|intros _].
  apply keeps_lift.
Qed.

Lemma keeps_predict_files E e X : keeps same_files (predict E e X).
Proof.
  unfold predict. apply keeps_bind; [apply keeps_log_files|intros _]. apply keeps_lift.
Qed.

Lemma keeps_predict_proba allowed E e X :
  allowed (EvPredictProba e X) = true -> keeps (extends allowed) (predict_proba E e X).
Proof.
  intros Hev. unfold predict_proba. apply keeps_bind; [now apply keeps_log|intros _].
  apply keeps_lift.
Qed.

Lemma keeps_predict_proba_files E e X : keeps same_files (predict_proba E e X).
Proof.
  unfold predict_proba. apply keeps_bind; [apply keeps_log_files|intros _].
  apply keeps_lift.
Qed.

Lemma keeps_mkdtemp allowed E :
  (forall dir, allowed (EvMkdtemp dir) = true) -> keeps (extends allowed) (mkdtemp E).
Proof.
  intros Hev. unfold mkdtemp. apply keeps_bind; [apply keeps_lift|intros dir].
  apply keeps_bind; [now apply keeps_log|intros _]. apply keeps_ret.
Qed.

Lemma keeps_mkdtemp_files E : keeps same_files (mkdtemp E).
Proof.
  unfold mkdtemp. apply keeps_bind; [apply keeps_lift|intros dir].
  apply keeps_bind; [apply keeps_log_files|intros _]. apply keeps_ret.
Qed.

Lemma yields_mkdtemp E : yields (fun dir => mkdtemp_result E = Ret dir) (mkdtemp E).
Proof.
  intros w dir. unfold mkdtemp, bind, lift, log, ret.
  destruct (mkdtemp_result E) as [d|e]; simpl; [|discriminate]. now intros [= ->].
Qed.

Lemma keeps_pickle_dump_to allowed E path e :
  allowed (EvOpenWrite path) = true -> allowed (EvDump e path) = true ->
  keeps (extends allowed) (pickle_dump_to E path e).
Proof.
  intros Ho Hd w. unfold pickle_dump_to, bind, lift, of_option_exn.
  destruct (open_write_result E path); simpl; [reflexivity|].
  destruct (dump_result E e); simpl.
  - exists [EvOpenWrite path]. simpl. now rewrite Ho.
  - exists [EvOpenWrite path; EvDump e path]. simpl. rewrite <- app_assoc.
    now rewrite Ho, Hd.
Qed.

Lemma keeps_pickle_load_from allowed path :
  allowed (EvLoad path) = true -> keeps (extends allowed) (pickle_load_from path).
Proof.
  intros Hev w. unfold pickle_load_from.
  destruct (files w !! path) as [[e|]|]; simpl; [| |reflexivity];
    exists [EvLoad path]; simpl; now rewrite Hev.
Qed.

Lemma keeps_pickle_load_from_files path : keeps same_files (pickle_load_from path).
Proof.
  intros w. unfold pickle_load_from. now destruct (files w !! path) as [[e|]|].
Qed.

Lemma keeps_save_predictions allowed E file probs preds truth :
  allowed (EvSavePredictions file preds probs truth) = true ->
  keeps (extends allowed) (save_predictions E file probs preds truth).
Proof.
  intros Hev. unfold save_predictions. apply keeps_bind; [apply keeps_lift|intros _].
  now apply keeps_log.
Qed.

Lemma keeps_save_predictions_files E file probs preds truth :
  keeps same_files (save_predictions E file probs preds truth).
Proof.
  unfold save_predictions. apply keeps_bind; [apply keeps_lift|intros _].
  apply keeps_log_files.
Qed.

(** Going through an adapter, one [bind] at a time. *)
Ltac keeps_step :=
  first
    [ apply keeps_ret | apply keeps_raise | apply keeps_lift | apply keeps_new
    | apply keeps_fit; reflexivity
    | apply keeps_predict; reflexivity
    | apply keeps_predict_proba; reflexivity
    | apply keeps_mkdtemp; intros; reflexivity
    | apply keeps_pickle_dump_to; reflexivity
    | apply keeps_pickle_load_from; reflexivity
    | apply keeps_save_predictions; reflexivity
    | apply keeps_try_except; [|intros ?]
    | apply (keeps_bind_with (fun p : option array => p = None));
      [apply yields_ret; reflexivity|apply keeps_ret|intros ? ->]
    | apply keeps_bind; [|intros ?]
    | match goal with |- keeps _ (if ?b then _ else _) => destruct b end ].

Ltac keeps_files_step :=
  first
    [ apply keeps_ret | apply keeps_raise | apply keeps_lift | apply keeps_new
    | apply keeps_fit_files | apply keeps_predict_files | apply keeps_predict_proba_files
    | apply keeps_mkdtemp_files | apply keeps_pickle_load_from_files
    | apply keeps_save_predictions_files
    | apply keeps_try_except; [|intros ?]
    | apply keeps_bind; [|intros ?]
    | match goal with |- keeps _ (if ?b then _ else _) => destruct b end ].

Ltac yields_none_step :=
  match goal with
  | |- yields _ (bind (ret None) _) =>
      apply (yields_bind_with (fun p : option array => p = None));
      [now apply yields_ret|intros ? ->]
  | |- yields _ (bind _ _) => apply yields_bind; intros ?
  | |- yields _ (ret _) => apply yields_ret; try split; reflexivity
  end.

(** *** Regression tasks and probabilities *)

(** X8.  When the task is not a classification, no adapter ever calls
    [predict_proba], whatever else happens: the results of the random
    forest and of flaml carry no probabilities (and flaml's no labels), and
    the constant predictor and the decision tree save their predictions
    without probabilities. *)
Theorem regression_never_calls_predict_proba E impute_array dataset config w :
  type_ config <> "classification" ->
  (extends no_probabilities w (snd (RandomForest.run E dataset config w))
   /\ forall r, fst (RandomForest.run E dataset config w) = Ret r -> probabilities r = None)
  /\ (extends no_probabilities w (snd (flaml.run E dataset config w))
      /\ forall r, fst (flaml.run E dataset config w) = Ret r ->
                   probabilities r = None /\ probabilities_labels r = None)
  /\ extends no_probabilities w (snd (constantpredictor.run E dataset config w))
  /\ extends no_probabilities w (snd (DecisionTree.run E impute_array dataset config w)).
Proof.
  intros Hcls. apply String.eqb_neq in Hcls.
  assert (Hrf : keeps (extends no_probabilities) (RandomForest.run E dataset config)).
  { unfold RandomForest.run. rewrite Hcls. cbv beta iota zeta.
    repeat (cbv zeta; keeps_step). }
  assert (Hrf' : yields (fun r => probabilities r = None) (RandomForest.run E dataset config)).
  { unfold RandomForest.run. rewrite Hcls. cbv beta iota zeta.
    repeat (cbv zeta; yields_none_step). }
  assert (Hfl : keeps (extends no_probabilities) (flaml.run E dataset config)).
  { unfold flaml.run. rewrite Hcls. cbv beta iota zeta.
    repeat (cbv zeta; keeps_step). }
  assert (Hfl' : yields (fun r => probabilities r = None /\ probabilities_labels r = None)
                        (flaml.run E dataset config)).
  { unfold flaml.run. rewrite Hcls. cbv beta iota zeta.
    repeat (cbv zeta; yields_none_step). }
  assert (Hcp : keeps (extends no_probabilities) (constantpredictor.run E dataset config)).
  { unfold constantpredictor.run. rewrite Hcls. cbv beta iota zeta.
    repeat (cbv zeta; keeps_step). }
  assert (Hdt : keeps (extends no_probabilities)
                      (DecisionTree.run E impute_array dataset config)).
  { unfold DecisionTree.run. rewrite Hcls. cbv beta iota zeta.
    repeat (cbv zeta; keeps_step). }
  split; [split; [apply Hrf|apply Hrf']|].
  split; [split; [apply Hfl|apply Hfl']|].
  split; [apply Hcp|apply Hdt].
Qed.

Lemma regression_never_calls_predict_proba_witness :
  let E := sample_env disk_ok in
  let config := MoreSamples.regression_task "train" None in
  (extends no_probabilities w0 (snd (RandomForest.run E ds0 config w0))
   /\ forall r, fst (RandomForest.run E ds0 config w0) = Ret r -> probabilities r = None)
  /\ (extends no_probabilities w0 (snd (flaml.run E ds0 config w0))
      /\ forall r, fst (flaml.run E ds0 config w0) = Ret r ->
                   probabilities r = None /\ probabilities_labels r = None)
  /\ extends no_probabilities w0 (snd (constantpredictor.run E ds0 config w0))
  /\ extends no_probabilities w0
       (snd (DecisionTree.run E MoreSamples.impute_id ds0 config w0)).
Proof.
  apply (regression_never_calls_predict_proba (sample_env disk_ok) MoreSamples.impute_id ds0
           (MoreSamples.regression_task "train" None) w0).
  discriminate.
Defined.

(** *** What a predict run does, and what any run leaves alone *)

(** X9.  A predict run, whatever happens in it, has no recorded effect but
    loading the model, predicting and saving predictions: it never fits,
    never asks for a temporary directory, and never opens or writes a model
    file. *)
Theorem predict_run_only_loads_and_predicts E impute_array dataset config w :
  task_type config = "predict" ->
  extends predict_effect w (snd (RandomForest.run E dataset config w))
  /\ extends predict_effect w (snd (flaml.run E dataset config w))
  /\ extends predict_effect w (snd (constantpredictor.run E dataset config w))
  /\ extends predict_effect w (snd (DecisionTree.run E impute_array dataset config w)).
Proof.
  intros Htask.
  assert (Hrf : keeps (extends predict_effect) (RandomForest.run E dataset config)).
  { unfold RandomForest.run. rewrite Htask.
    change (String.eqb "predict" "train") with false.
    change (String.eqb "predict" "predict") with true. cbv beta iota zeta.
    repeat (cbv zeta; keeps_step). }
  assert (Hfl : keeps (extends predict_effect) (flaml.run E dataset config)).
  { unfold flaml.run. rewrite Htask.
    change (String.eqb "predict" "train") with false.
    change (String.eqb "predict" "predict") with true. cbv beta iota zeta.
    repeat (cbv zeta; keeps_step). }
  assert (Hcp : keeps (extends predict_effect) (constantpredictor.run E dataset config)).
  { unfold constantpredictor.run. rewrite Htask.
    change (String.eqb "predict" "train") with false.
    change (String.eqb "predict" "predict") with true. cbv beta iota zeta.
    repeat (cbv zeta; keeps_step). }
  assert (Hdt : keeps (extends predict_effect)
                      (DecisionTree.run E impute_array dataset config)).
  { unfold DecisionTree.run. rewrite Htask.
    change (String.eqb "predict" "train") with false.
    change (String.eqb "predict" "predict") with true. cbv beta iota zeta.
    repeat (cbv zeta; keeps_step). }
  split; [apply Hrf|]. split; [apply Hfl|]. split; [apply Hcp|apply Hdt].
Qed.

Lemma predict_run_only_loads_and_predicts_witness :
  let E := sample_env disk_ok in
  let config := task "predict" (Some "/models/rf") in
  extends predict_effect w_saved (snd (RandomForest.run E ds0 config w_saved))
  /\ extends predict_effect w_saved (snd (flaml.run E ds0 config w_saved))
  /\ extends predict_effect w_saved (snd (constantpredictor.run E ds0 config w_saved))
  /\ extends predict_effect w_saved
       (snd (DecisionTree.run E MoreSamples.impute_id ds0 config w_saved)).
Proof.
  apply (predict_run_only_loads_and_predicts (sample_env disk_ok) MoreSamples.impute_id ds0
           (task "predict" (Some "/models/rf")) w_saved).
  reflexivity.
Defined.

Ltac keeps_writes_step :=
  first
    [ apply keeps_pickle_dump_to;
      match goal with
      | H : mkdtemp_result _ = Ret _ |- _ =>
          unfold writes_model_only; rewrite H; apply String.eqb_refl
      end
    | eapply keeps_bind_with;
      [apply yields_mkdtemp|apply keeps_mkdtemp; intros; reflexivity
      |let H := fresh "Hdir" in intros ? H; cbv beta in H]
    | keeps_step ].

(** X10.  Whatever the task and whatever happens, the only file that a run
    of an adapter itself opens for writing, and pickles into, is [model.pkl]
    in the directory that [tempfile.mkdtemp] gave.  (What the library calls
    write on their own, as [save_predictions] does with the predictions
    file, is not among the recorded effects.) *)
Theorem run_opens_only_the_model_file E impute_array dataset config w :
  extends (writes_model_only E) w (snd (RandomForest.run E dataset config w))
  /\ extends (writes_model_only E) w (snd (flaml.run E dataset config w))
  /\ extends (writes_model_only E) w (snd (constantpredictor.run E dataset config w))
  /\ extends (writes_model_only E) w (snd (DecisionTree.run E impute_array dataset config w)).
Proof.
  assert (Hrf : keeps (extends (writes_model_only E)) (RandomForest.run E dataset config)).
  { unfold RandomForest.run. repeat (cbv zeta; keeps_writes_step). }
  assert (Hfl : keeps (extends (writes_model_only E)) (flaml.run E dataset config)).
  { unfold flaml.run. repeat (cbv zeta; keeps_writes_step). }
  assert (Hcp : keeps (extends (writes_model_only E)) (constantpredictor.run E dataset config)).
  { unfold constantpredictor.run. repeat (cbv zeta; keeps_writes_step). }
  assert (Hdt : keeps (extends (writes_model_only E))
                      (DecisionTree.run E impute_array dataset config)).
  { unfold DecisionTree.run. repeat (cbv zeta; keeps_writes_step). }
  split; [apply Hrf|]. split; [apply Hfl|]. split; [apply Hcp|apply Hdt].
Qed.

(** *** The steps of a run, case by case *)

Lemma bind_new_eq E cls named extra {A} (k : estimator -> M world A) w :
  bind (new E cls named extra) k w
  = match call_kwargs named extra with
    | Raise e => (Raise e, w)
    | Ret kw =>
        match new_result E cls kw with
        | Some e => (Raise e, w)
        | None => k (Estimator cls kw None) w
        end
    end.
Proof.
  unfold new, bind, lift, ret, of_option_exn.
  destruct (call_kwargs named extra) as [kw|e]; [|reflexivity].
  now destruct (new_result E cls kw).
Qed.

Lemma bind_fit_eq E e X y named extra {A} (k : estimator -> M world A) w :
  bind (fit E e X y named extra) k w
  = match call_kwargs named extra with
    | Raise ex => (Raise ex, w)
    | Ret kw =>
        let w1 := World (files w) (trace w ++ [EvFit e X y]) in
        match fit_result E e X y kw with
        | Some ex => (Raise ex, w1)
        | None => k (Estimator (est_class e) (est_kwargs e) (Some (X, y, kw))) w1
        end
    end.
Proof.
  unfold fit, bind, lift, log, ret, of_option_exn.
  destruct (call_kwargs named extra) as [kw|ex]; [|reflexivity]. simpl.
  now destruct (fit_result E e X y kw).
Qed.

Lemma bind_mkdtemp_eq E {A} (k : string -> M world A) w :
  bind (mkdtemp E) k w
  = match mkdtemp_result E with
    | Raise e => (Raise e, w)
    | Ret dir => k dir (World (files w) (trace w ++ [EvMkdtemp dir]))
    end.
Proof.
  unfold mkdtemp, bind, lift, log, ret. now destruct (mkdtemp_result E).
Qed.

Lemma bind_persist_eq E dir m {A} (k : option string -> M world A) w :
  let path := Docker.path_join dir "model.pkl" in
  bind (try_except (bind (pickle_dump_to E path m) (fun _ => ret (Some dir)))
                   (fun _ => true) (fun _ => ret None)) k w
  = match open_write_result E path with
    | Some _ => k None w
    | None =>
        match dump_result E m with
        | Some _ => k None (World (<[path := None]> (files w)) (trace w ++ [EvOpenWrite path]))
        | None => k (Some dir)
                    (World (<[path := Some m]> (<[path := None]> (files w)))
                           ((trace w ++ [EvOpenWrite path]) ++ [EvDump m path]))
        end
    end.
Proof.
  cbv zeta. unfold try_except, pickle_dump_to, bind, lift, ret, of_option_exn.
  destruct (open_write_result E (Docker.path_join dir "model.pkl")); simpl; [reflexivity|].
  now destruct (dump_result E m).
Qed.

Lemma bind_predict_eq E m X {A} (k : array -> M world A) w :
  bind (predict E m X) k w
  = let w1 := World (files w) (trace w ++ [EvPredict m X]) in
    match predict_result E m X with
    | Raise e => (Raise e, w1)
    | Ret preds => k preds w1
    end.
Proof. unfold predict, bind, lift, log, ret. simpl. now destruct (predict_result E m X). Qed.

Lemma bind_predict_proba_eq E m X {A} (k : array -> M world A) w :
  bind (predict_proba E m X) k w
  = let w1 := World (files w) (trace w ++ [EvPredictProba m X]) in
    match predict_proba_result E m X with
    | Raise e => (Raise e, w1)
    | Ret p => k p w1
    end.
Proof.
  unfold predict_proba, bind, lift, log, ret. simpl.
  now destruct (predict_proba_result E m X).
Qed.

Lemma bind_lift_eq {A B} (o : outcome A) (k : A -> M world B) w :
  bind (lift o) k w = match o with Ret a => k a w | Raise e => (Raise e, w) end.
Proof. unfold bind, lift. now destruct o. Qed.

Lemma bind_load_eq path {A} (k : estimator -> M world A) w :
  bind (pickle_load_from path) k w
  = match files w !! path with
    | None => (Raise (Exn FileNotFoundError
                          ("No such file or directory: '" +:+ path +:+ "'")), w)
    | Some None => (Raise (Exn EOFError "Ran out of input"),
                    World (files w) (trace w ++ [EvLoad path]))
    | Some (Some m) => k m (World (files w) (trace w ++ [EvLoad path]))
    end.
Proof. unfold pickle_load_from, bind. now destruct (files w !! path) as [[m|]|]. Qed.

Lemma bind_save_predictions_eq E file probs preds truth {A} (k : unit -> M world A) w :
  bind (save_predictions E file probs preds truth) k w
  = match save_predictions_result E file with
    | Some e => (Raise e, w)
    | None => k tt (World (files w) (trace w ++ [EvSavePredictions file preds probs truth]))
    end.
Proof.
  unfold save_predictions, bind, lift, log, ret, of_option_exn.
  now destruct (save_predictions_result E file).
Qed.

(** *** From a train run to a predict run *)

Lemma random_forest_round_trip E dataset config config' w r w' :
  task_type config = "train" ->
  RandomForest.run E dataset config w = (Ret r, w') ->
  result_model_path r <> None ->
  task_type config' = "predict" ->
  model_path config' = result_model_path r ->
  type_ config' = type_ config ->
  exists r2 w'',
    RandomForest.run E dataset config' w' = (Ret r2, w'')
    /\ predictions r2 = predictions r
    /\ probabilities r2 = probabilities r
    /\ models_count r2 = models_count r
    /\ training_duration r2 = 0%float
    /\ result_model_path r2 = None.
Proof.
  intros Htrain Hrun Hsaved Hpredict Hpath Htype.
  unfold RandomForest.run in Hrun. rewrite Htrain in Hrun.
  change (String.eqb "train" "train") with true in Hrun. cbv iota in Hrun.
  rewrite AdapterFacts.bind_assoc, bind_new_eq in Hrun.
  destruct (call_kwargs _ _) as [kw|]; [|discriminate].
  destruct (new_result E _ kw); [discriminate|].
  rewrite AdapterFacts.bind_assoc, bind_fit_eq in Hrun. cbn [call_kwargs] in Hrun. cbv zeta in Hrun.
  destruct (fit_result E _ _ _ _); [discriminate|].
  rewrite AdapterFacts.bind_assoc, bind_mkdtemp_eq in Hrun.
  destruct (mkdtemp_result E) as [dir|]; [|discriminate].
  rewrite AdapterFacts.bind_assoc in Hrun. cbn [est_class est_kwargs files trace] in Hrun.
  rewrite bind_persist_eq in Hrun.
  set (m := Estimator (if String.eqb (type_ config) "classification"
                       then "RandomForestClassifier" else "RandomForestRegressor")
                      kw (Some (train_X dataset, train_y dataset, ∅))) in *.
  set (path := Docker.path_join dir "model.pkl") in *.
  assert (Hrest : forall mp wa,
             (bind (ret (m, duration E Training, mp))
                   (fun st =>
                      bind (predict E (fst (fst st)) (test_X dataset)) (fun predictions =>
                      bind (if String.eqb (type_ config) "classification"
                            then bind (predict_proba E (fst (fst st)) (test_X dataset))
                                      (fun p => ret (Some p))
                            else ret None) (fun probabilities =>
                      ret (result (output_predictions_file config) predictions
                                  (test_y dataset) probabilities None
                                  (Some (dict_get (framework_params config) "_encode"
                                                  (PBool true)))
                                  (len_result E (fst (fst st))) (snd (fst st))
                                  (duration E Predict) (snd st))))) wa
              = (Ret r, w')) ->
             result_model_path r = mp
             /\ files w' = files wa
             /\ exists preds,
                 predict_result E m (test_X dataset) = Ret preds
                 /\ predictions r = preds
                 /\ models_count r = len_result E m
                 /\ (if String.eqb (type_ config) "classification"
                     then exists p, predict_proba_result E m (test_X dataset) = Ret p
                                    /\ probabilities r = Some p
                     else probabilities r = None)).
  { intros mp wa H. rewrite AdapterFacts.bind_ret in H. cbn [fst snd] in H.
    rewrite bind_predict_eq in H. cbv zeta in H.
    destruct (predict_result E m (test_X dataset)) as [preds|]; [|discriminate].
    destruct (String.eqb (type_ config) "classification").
    - rewrite AdapterFacts.bind_assoc, bind_predict_proba_eq in H. cbv zeta in H.
      destruct (predict_proba_result E m (test_X dataset)) as [p|]; [|discriminate].
      rewrite !AdapterFacts.bind_ret in H. injection H as <- <-.
      repeat split. exists preds. repeat split. exists p. now split.
    - rewrite !AdapterFacts.bind_ret in H. injection H as <- <-.
      repeat split. exists preds. now repeat split. }
  destruct (open_write_result E path).
  { apply Hrest in Hrun as [Hmp _]. congruence. }
  destruct (dump_result E m).
  { apply Hrest in Hrun as [Hmp _]. congruence. }
  apply Hrest in Hrun as (Hmp & Hfiles & preds & Hpred & Hp & Hcount & Hproba).
  cbn [files] in Hfiles. clear Hrest.
  unfold RandomForest.run. rewrite Hpredict, Hpath, Hmp, Htype.
  change (String.eqb "predict" "train") with false.
  change (String.eqb "predict" "predict") with true. cbv iota.
  rewrite AdapterFacts.bind_assoc, bind_lift_eq. cbn [os_path_join]. fold path.
  rewrite AdapterFacts.bind_assoc, bind_load_eq, Hfiles, lookup_insert_eq.
  rewrite !AdapterFacts.bind_ret. cbn [fst snd].
  rewrite bind_predict_eq, Hpred. cbv zeta.
  destruct (String.eqb (type_ config) "classification").
  - destruct Hproba as (p & Hpp & Hprobs).
    rewrite AdapterFacts.bind_assoc, bind_predict_proba_eq, Hpp. cbv zeta.
    rewrite !AdapterFacts.bind_ret. eexists _, _. split; [reflexivity|].
    cbn. now rewrite Hp, Hprobs, Hcount.
  - rewrite !AdapterFacts.bind_ret. eexists _, _. split; [reflexivity|].
    cbn. now rewrite Hp, Hproba, Hcount.
Qed.

Lemma flaml_round_trip E dataset config config' w r w' :
  task_type config = "train" ->
  flaml.run E dataset config w = (Ret r, w') ->
  result_model_path r <> None ->
  task_type config' = "predict" ->
  model_path config' = result_model_path r ->
  type_ config' = type_ config ->
  exists r2 w'',
    flaml.run E dataset config' w' = (Ret r2, w'')
    /\ predictions r2 = predictions r
    /\ probabilities r2 = probabilities r
    /\ probabilities_labels r2 = probabilities_labels r
    /\ models_count r2 = models_count r
    /\ training_duration r2 = 0%float
    /\ result_model_path r2 = None.
Proof.
  intros Htrain Hrun Hsaved Hpredict Hpath Htype.
  unfold flaml.run in Hrun. rewrite Htrain in Hrun.
  change (String.eqb "train" "train") with true in Hrun. cbv iota in Hrun.
  rewrite AdapterFacts.bind_assoc, bind_new_eq in Hrun. cbn [call_kwargs] in Hrun.
  destruct (new_result E _ _); [discriminate|].
  rewrite AdapterFacts.bind_assoc, bind_lift_eq in Hrun.
  destruct (output_subdir_result E "logs") as [log_dir|]; [|discriminate].
  rewrite AdapterFacts.bind_assoc, bind_fit_eq in Hrun.
  destruct (call_kwargs _ _) as [kw|]; [|discriminate]. cbv zeta in Hrun.
  destruct (fit_result E _ _ _ _); [discriminate|].
  rewrite AdapterFacts.bind_assoc, bind_mkdtemp_eq in Hrun.
  destruct (mkdtemp_result E) as [dir|]; [|discriminate].
  rewrite AdapterFacts.bind_assoc in Hrun. cbn [est_class est_kwargs files trace] in Hrun.
  rewrite bind_persist_eq in Hrun.
  set (m := Estimator "AutoML" ∅
                      (Some (train_X dataset, flaml.squeeze (train_y dataset), kw))) in *.
  set (path := Docker.path_join dir "model.pkl") in *.
  assert (Hrest : forall mp wa,
             (bind (ret (m, duration E Training, mp))
                   (fun st =>
                      bind (predict E (fst (fst st)) (test_X dataset)) (fun predictions =>
                      bind (if String.eqb (type_ config) "classification"
                            then bind (predict_proba E (fst (fst st)) (test_X dataset))
                                      (fun p => ret (Some p))
                            else ret None) (fun probabilities =>
                      ret (result (output_predictions_file config) predictions
                                  (flaml.squeeze (test_y dataset)) probabilities
                                  (if String.eqb (type_ config) "classification"
                                   then Some (classes_result E (fst (fst st))) else None)
                                  None
                                  (len_result E (fst (fst st))) (snd (fst st))
                                  (duration E Predict) (snd st))))) wa
              = (Ret r, w')) ->
             result_model_path r = mp
             /\ files w' = files wa
             /\ exists preds,
                 predict_result E m (test_X dataset) = Ret preds
                 /\ predictions r = preds
                 /\ models_count r = len_result E m
                 /\ probabilities_labels r
                    = (if String.eqb (type_ config) "classification"
                       then Some (classes_result E m) else None)
                 /\ (if String.eqb (type_ config) "classification"
                     then exists p, predict_proba_result E m (test_X dataset) = Ret p
                                    /\ probabilities r = Some p
                     else probabilities r = None)).
  { intros mp wa H. rewrite AdapterFacts.bind_ret in H. cbn [fst snd] in H.
    rewrite bind_predict_eq in H. cbv zeta in H.
    destruct (predict_result E m (test_X dataset)) as [preds|]; [|discriminate].
    destruct (String.eqb (type_ config) "classification").
    - rewrite AdapterFacts.bind_assoc, bind_predict_proba_eq in H. cbv zeta in H.
      destruct (predict_proba_result E m (test_X dataset)) as [p|]; [|discriminate].
      rewrite !AdapterFacts.bind_ret in H. injection H as <- <-.
      repeat split. exists preds. repeat split. exists p. now split.
    - rewrite !AdapterFacts.bind_ret in H. injection H as <- <-.
      repeat split. exists preds. now repeat split. }
  destruct (open_write_result E path).
  { apply Hrest in Hrun as [Hmp _]. congruence. }
  destruct (dump_result E m).
  { apply Hrest in Hrun as [Hmp _]. congruence. }
  apply Hrest in Hrun as (Hmp & Hfiles & preds & Hpred & Hp & Hcount & Hlabels & Hproba).
  cbn [files] in Hfiles. clear Hrest.
  unfold flaml.run. rewrite Hpredict, Hpath, Hmp, Htype.
  change (String.eqb "predict" "train") with false.
  change (String.eqb "predict" "predict") with true. cbv iota.
  rewrite AdapterFacts.bind_assoc, bind_lift_eq. cbn [os_path_join]. fold path.
  rewrite AdapterFacts.bind_assoc, bind_load_eq, Hfiles, lookup_insert_eq.
  rewrite !AdapterFacts.bind_ret. cbn [fst snd].
  rewrite bind_predict_eq, Hpred. cbv zeta.
  destruct (String.eqb (type_ config) "classification").
  - destruct Hproba as (p & Hpp & Hprobs).
    rewrite AdapterFacts.bind_assoc, bind_predict_proba_eq, Hpp. cbv zeta.
    rewrite !AdapterFacts.bind_ret. eexists _, _. split; [reflexivity|].
    cbn. now rewrite Hp, Hprobs, Hcount, Hlabels.
  - rewrite !AdapterFacts.bind_ret. eexists _, _. split; [reflexivity|].
    cbn. now rewrite Hp, Hproba, Hcount, Hlabels.
Qed.

(** X11.  The model handed over by a train run is the model a predict run
    uses: if a train run returns a result with a [model_path], a predict run
    started afterwards with that [model_path] (same dataset, same kind of
    task) loads the fitted estimator and returns the same predictions,
    probabilities and model count, with [training_duration = 0.0] and no
    [model_path]. *)
Theorem train_then_predict_round_trip E dataset config config' w :
  task_type config = "train" ->
  task_type config' = "predict" ->
  type_ config' = type_ config ->
  (forall r w',
      RandomForest.run E dataset config w = (Ret r, w') ->
      result_model_path r <> None ->
      model_path config' = result_model_path r ->
      exists r2 w'',
        RandomForest.run E dataset config' w' = (Ret r2, w'')
        /\ predictions r2 = predictions r
        /\ probabilities r2 = probabilities r
        /\ models_count r2 = models_count r
        /\ training_duration r2 = 0%float
        /\ result_model_path r2 = None)
  /\ (forall r w',
        flaml.run E dataset config w = (Ret r, w') ->
        result_model_path r <> None ->
        model_path config' = result_model_path r ->
        exists r2 w'',
          flaml.run E dataset config' w' = (Ret r2, w'')
          /\ predictions r2 = predictions r
          /\ probabilities r2 = probabilities r
          /\ probabilities_labels r2 = probabilities_labels r
          /\ models_count r2 = models_count r
          /\ training_duration r2 = 0%float
          /\ result_model_path r2 = None).
Proof.
  intros Htrain Hpredict Htype. split; intros r w' Hrun Hsaved Hpath.
  - now apply (random_forest_round_trip E dataset config config' w r w').
  - now apply (flaml_round_trip E dataset config config' w r w').
Qed.

Lemma train_then_predict_round_trip_witness :
  let E := sample_env disk_ok in
  let trained := RandomForest.run E ds0 (task "train" None) w0 in
  exists r r2 w'',
    fst trained = Ret r
    /\ RandomForest.run E ds0 (task "predict" (Some "/tmp/tmpk3x9")) (snd trained)
       = (Ret r2, w'')
    /\ predictions r2 = predictions r
    /\ probabilities r2 = probabilities r
    /\ models_count r2 = models_count r
    /\ training_duration r2 = 0%float
    /\ result_model_path r2 = None.
Proof.
  cbv zeta.
  destruct (RandomForest.run (sample_env disk_ok) ds0 (task "train" None) w0)
    as [o w'] eqn:Hrun.
  assert (Ho : exists r, o = Ret r /\ result_model_path r = Some "/tmp/tmpk3x9").
  { vm_compute in Hrun. injection Hrun as <- _. eexists. split; reflexivity. }
  destruct Ho as (r & -> & Hmp).
  destruct (train_then_predict_round_trip (sample_env disk_ok) ds0 (task "train" None)
              (task "predict" (Some "/tmp/tmpk3x9")) w0 eq_refl eq_refl eq_refl)
    as [Hrf _].
  destruct (Hrf r w' Hrun) as (r2 & w'' & H).
  - rewrite Hmp. discriminate.
  - now rewrite Hmp.
  - exists r, r2, w''. split; [reflexivity|exact H].
Defined.

Import MoreAdapterSamples.

(** *** Keywords given twice *)

Lemma call_kwargs_keeps named extra kw k v :
  call_kwargs named extra = Ret kw -> extra !! k = Some v -> kw !! k = Some v.
Proof.
  revert kw. induction named as [|[k' v'] named IH]; simpl; intros kw H Hk.
  - now injection H as <-.
  - destruct (call_kwargs named extra) as [kw0|]; simpl in H; [|discriminate].
    destruct (kw0 !! k') eqn:Hk'; [discriminate|]. injection H as <-.
    specialize (IH kw0 eq_refl Hk).
    rewrite lookup_insert_ne; [exact IH|]. intros ->. congruence.
Qed.

Lemma call_kwargs_raise named extra e :
  call_kwargs named extra = Raise e -> exn_cls e = TypeError.
Proof.
  induction named as [|[k' v'] named IH]; simpl; [discriminate|].
  destruct (call_kwargs named extra) as [kw0|e0]; simpl.
  - destruct (kw0 !! k'); [|discriminate]. now intros [= <-].
  - intros [= <-]. now apply IH.
Qed.

Lemma call_kwargs_duplicate named extra k v :
  In k (map fst named) -> extra !! k = Some v ->
  exists e, call_kwargs named extra = Raise e /\ exn_cls e = TypeError.
Proof.
  intros Hin Hk. induction named as [|[k' v'] named IH]; simpl in *; [destruct Hin|].
  destruct (call_kwargs named extra) as [kw0|e0] eqn:Hc; simpl.
  - destruct Hin as [->|Hin].
    + rewrite (call_kwargs_keeps _ _ _ _ _ Hc Hk). eexists. split; reflexivity.
    + destruct (IH Hin) as (e & He & _). discriminate.
  - exists e0. split; [reflexivity|]. eapply call_kwargs_raise; eauto.
Qed.

Lemma public_params_lookup d k v :
  d !! k = Some v -> String.prefix "_" k = false -> public_params d !! k = Some v.
Proof. intros Hk Hp. unfold public_params. apply map_lookup_filter_Some. now split. Qed.

(** X12.  A framework parameter that repeats a keyword the adapter passes
    by name makes the call a [TypeError], raised before anything is
    fitted: [n_jobs] and [random_state] in a train run of the random
    forest, the five named arguments of [fit] in a train run of flaml,
    and [random_state] in any run of the decision tree, whose constructor
    call comes before the task type is looked at. *)
Theorem duplicate_keyword_is_a_type_error E impute_array dataset config w k v :
  framework_params config !! k = Some v ->
  (task_type config = "train" -> In k ["n_jobs"; "random_state"] ->
   exists e, RandomForest.run E dataset config w = (Raise e, w) /\ exn_cls e = TypeError)
  /\ (task_type config = "train" ->
      In k ["metric"; "task"; "n_jobs"; "log_file_name"; "time_budget"] ->
      new_result E "AutoML" ∅ = None ->
      (exists log_dir, output_subdir_result E "logs" = Ret log_dir) ->
      exists e, flaml.run E dataset config w = (Raise e, w) /\ exn_cls e = TypeError)
  /\ (k = "random_state" ->
      (exists X, impute_array (train_X_enc dataset) (test_X_enc dataset) = Ret X) ->
      exists e, DecisionTree.run E impute_array dataset config w = (Raise e, w)
                /\ exn_cls e = TypeError).
Proof.
  intros Hk. split; [|split].
  - intros Htask Hin.
    assert (Hpub : public_params (framework_params config) !! k = Some v).
    { apply public_params_lookup; [exact Hk|].
      destruct Hin as [<-|[<-|[]]]; reflexivity. }
    unfold RandomForest.run. rewrite Htask.
    change (String.eqb "train" "train") with true. cbv iota.
    rewrite AdapterFacts.bind_assoc, bind_new_eq.
    edestruct call_kwargs_duplicate as (e & -> & Hcls); [|exact Hpub|].
    + simpl. destruct Hin as [<-|[<-|[]]]; auto.
    + now exists e.
  - intros Htask Hin Hnew (log_dir & Hlog).
    assert (Hpub : public_params (framework_params config) !! k = Some v).
    { apply public_params_lookup; [exact Hk|].
      destruct Hin as [<-|[<-|[<-|[<-|[<-|[]]]]]]; reflexivity. }
    unfold flaml.run. rewrite Htask.
    change (String.eqb "train" "train") with true. cbv iota.
    rewrite AdapterFacts.bind_assoc, bind_new_eq. cbn [call_kwargs]. rewrite Hnew.
    rewrite AdapterFacts.bind_assoc, bind_lift_eq, Hlog.
    rewrite AdapterFacts.bind_assoc, bind_fit_eq.
    edestruct call_kwargs_duplicate as (e & -> & Hcls); [|exact Hpub|].
    + simpl. destruct Hin as [<-|[<-|[<-|[<-|[<-|[]]]]]]; auto 10.
    + now exists e.
  - intros -> (X & HX).
    unfold DecisionTree.run. rewrite bind_lift_eq, HX.
    rewrite bind_new_eq.
    edestruct call_kwargs_duplicate as (e & -> & Hcls); [|exact Hk|].
    + simpl. auto.
    + now exists e.
Qed.

Lemma duplicate_keyword_is_a_type_error_witness :
  let E := sample_env disk_ok in
  (exists e, RandomForest.run E ds0 (seeded_task "train") w0 = (Raise e, w0)
             /\ exn_cls e = TypeError)
  /\ (exists e, DecisionTree.run E MoreSamples.impute_id ds0 (seeded_task "predict") w0
                = (Raise e, w0)
                /\ exn_cls e = TypeError).
Proof.
  intros E.
  split.
  - apply (proj1 (duplicate_keyword_is_a_type_error E MoreSamples.impute_id ds0
                    (seeded_task "train") w0 "random_state" (PInt 1) eq_refl));
      [reflexivity|simpl; auto].
  - apply (proj2 (proj2 (duplicate_keyword_is_a_type_error E MoreSamples.impute_id ds0
                    (seeded_task "predict") w0 "random_state" (PInt 1) eq_refl)));
      [reflexivity|eexists; reflexivity].
Defined.

(** *** No temporary directory *)

Lemma fails_before_fit {A} E e (e' : exn) w :
  @fails_after_fit A E e (fun _ => (Raise e', w)) w.
Proof.
  exists e', w. split; [reflexivity|]. split; [reflexivity|].
  intros _ H. now destruct H.
Qed.

(** From the fit on, the train branch is the same in the four adapters. *)
Lemma fit_then_mkdtemp_fails {A B} E e m X y named extra
      (k : estimator -> string -> M world B) (k' : B -> M world A) w :
  mkdtemp_result E = Raise e ->
  fails_after_fit E e
    (bind (bind (fit E m X y named extra) (fun m' => bind (mkdtemp E) (k m'))) k') w.
Proof.
  intros Hdir. unfold fails_after_fit.
  rewrite AdapterFacts.bind_assoc, bind_fit_eq.
  destruct (call_kwargs named extra) as [kw|e0]; [|apply (fails_before_fit E e e0 w)].
  cbv zeta. destruct (fit_result E m X y kw) as [e1|] eqn:Hfit.
  - eexists _, _. split; [reflexivity|].
    split; [exists [EvFit m X y]; now split|].
    intros Hok. now rewrite Hok in Hfit.
  - rewrite AdapterFacts.bind_assoc, bind_mkdtemp_eq, Hdir.
    eexists _, _. split; [reflexivity|].
    split; [exists [EvFit m X y]; now split|reflexivity].
Qed.

(** X13.  The temporary directory is asked for outside the [try] that
    guards the writing of the model: when [tempfile.mkdtemp] raises, a train
    run of any adapter raises too, although the model may have been fitted;
    nothing is predicted, no model file is opened and no predictions are
    saved. *)
Theorem mkdtemp_failure_is_fatal E impute_array dataset config w e :
  task_type config = "train" ->
  mkdtemp_result E = Raise e ->
  fails_after_fit E e (RandomForest.run E dataset config) w
  /\ fails_after_fit E e (flaml.run E dataset config) w
  /\ fails_after_fit E e (constantpredictor.run E dataset config) w
  /\ fails_after_fit E e (DecisionTree.run E impute_array dataset config) w.
Proof.
  intros Htask Hdir. repeat split.
  - unfold fails_after_fit, RandomForest.run. rewrite Htask.
    change (String.eqb "train" "train") with true. cbv iota.
    rewrite AdapterFacts.bind_assoc, bind_new_eq.
    destruct (call_kwargs _ _) as [kw|e0]; [|apply (fails_before_fit E e e0 w)].
    destruct (new_result E _ kw) as [e0|]; [apply (fails_before_fit E e e0 w)|].
    now apply fit_then_mkdtemp_fails.
  - unfold fails_after_fit, flaml.run. rewrite Htask.
    change (String.eqb "train" "train") with true. cbv iota.
    rewrite AdapterFacts.bind_assoc, bind_new_eq. cbn [call_kwargs].
    destruct (new_result E _ _) as [e0|]; [apply (fails_before_fit E e e0 w)|].
    rewrite AdapterFacts.bind_assoc, bind_lift_eq.
    destruct (output_subdir_result E "logs") as [log_dir|e0];
      [|apply (fails_before_fit E e e0 w)].
    now apply fit_then_mkdtemp_fails.
  - unfold fails_after_fit, constantpredictor.run. rewrite Htask.
    change (String.eqb "train" "train") with true. cbv iota.
    destruct (String.eqb (type_ config) "classification").
    + rewrite bind_new_eq. cbn [call_kwargs obind]. rewrite lookup_empty.
      destruct (new_result E _ _) as [e0|]; [apply (fails_before_fit E e e0 w)|].
      now apply fit_then_mkdtemp_fails.
    + rewrite bind_new_eq. cbn [call_kwargs obind]. rewrite lookup_empty.
      destruct (new_result E _ _) as [e0|]; [apply (fails_before_fit E e e0 w)|].
      now apply fit_then_mkdtemp_fails.
  - unfold fails_after_fit, DecisionTree.run. rewrite Htask.
    change (String.eqb "train" "train") with true. cbv iota.
    rewrite bind_lift_eq.
    destruct (impute_array _ _) as [imputed|e0]; [|apply (fails_before_fit E e e0 w)].
    rewrite bind_new_eq.
    destruct (call_kwargs _ _) as [kw|e0]; [|apply (fails_before_fit E e e0 w)].
    destruct (new_result E _ kw) as [e0|]; [apply (fails_before_fit E e e0 w)|].
    now apply fit_then_mkdtemp_fails.
Qed.

Lemma mkdtemp_failure_is_fatal_witness :
  let e := Exn FileNotFoundError "No usable temporary directory found" in
  let config := task "train" None in
  fails_after_fit no_tmp_env e (RandomForest.run no_tmp_env ds0 config) w0
  /\ fails_after_fit no_tmp_env e (flaml.run no_tmp_env ds0 config) w0
  /\ fails_after_fit no_tmp_env e (constantpredictor.run no_tmp_env ds0 config) w0
  /\ fails_after_fit no_tmp_env e
       (DecisionTree.run no_tmp_env MoreSamples.impute_id ds0 config) w0.
Proof.
  apply (mkdtemp_failure_is_fatal no_tmp_env MoreSamples.impute_id ds0 (task "train" None) w0);
    reflexivity.
Defined.

(** *** Where the predictions go *)

Lemma ends_with_bind {A B} (Q : event -> Prop) (c : M world A) (k : A -> M world B) :
  keeps (extends not_save) c -> (forall a, ends_with Q (k a)) -> ends_with Q (bind c k).
Proof.
  intros Hc Hk w. unfold bind. specialize (Hc w).
  destruct (c w) as [[a|e] w1]; simpl in Hc; [|exact Hc].
  specialize (Hk a w1). destruct (k a w1) as [[b|e] w2].
  - destruct Hc as (evs1 & H1 & Ha1), Hk as (evs & ev & H2 & Ha & HQ).
    exists (evs1 ++ evs), ev. rewrite H2, H1, <- !app_assoc. split; [reflexivity|].
    rewrite forallb_app, Ha1, Ha. now split.
  - now transitivity w1.
Qed.

Lemma ends_with_lift {A B} (Q : event -> Prop) (o : outcome A) (k : A -> M world B) :
  (forall a, o = Ret a -> ends_with Q (k a)) -> ends_with Q (bind (lift o) k).
Proof.
  intros Hk w. rewrite bind_lift_eq. destruct o as [a|e]; [now apply Hk|reflexivity].
Qed.

(** From the prediction on, the constant predictor and the decision tree
    do the same. *)
Lemma predict_and_save E cls file m X y (s : RunSummary) :
  ends_with (saves_predictions_of E cls file X y)
    (bind (predict E m X) (fun predictions =>
     bind (if cls then bind (predict_proba E m X) (fun p => ret (Some p)) else ret None)
          (fun probabilities =>
     bind (save_predictions E file probabilities predictions y) (fun _ => ret s)))).
Proof.
  intros w. rewrite bind_predict_eq. cbv zeta.
  destruct (predict_result E m X) as [preds|e] eqn:Hpred;
    [|exists [EvPredict m X]; now split].
  destruct cls.
  - rewrite AdapterFacts.bind_assoc, bind_predict_proba_eq. cbv zeta.
    destruct (predict_proba_result E m X) as [p|e] eqn:Hproba; cbn [trace files].
    + rewrite AdapterFacts.bind_ret, bind_save_predictions_eq.
      destruct (save_predictions_result E file); cbn [trace files ret].
      * exists [EvPredict m X; EvPredictProba m X]. rewrite <- app_assoc. now split.
      * exists [EvPredict m X; EvPredictProba m X], (EvSavePredictions file preds (Some p) y).
        rewrite <- !app_assoc. split; [reflexivity|]. split; [reflexivity|].
        exists m, preds, (Some p). split; [reflexivity|]. split; [exact Hpred|].
        now exists p.
    + exists [EvPredict m X; EvPredictProba m X]. rewrite <- app_assoc. now split.
  - rewrite AdapterFacts.bind_ret, bind_save_predictions_eq.
    destruct (save_predictions_result E file); cbn [trace files ret].
    + exists [EvPredict m X]. now split.
    + exists [EvPredict m X], (EvSavePredictions file preds None y).
      rewrite <- !app_assoc. split; [reflexivity|]. split; [reflexivity|].
      exists m, preds, None. now repeat split.
Qed.

(** X14.  The constant predictor and the decision tree hand their
    predictions over through [save_predictions]: a run that returns has
    saved, once and as its last effect, what its estimator predicts for the
    test data, with the truth of the test data and, in a classification,
    the probabilities; a run that raises has saved nothing. *)
Theorem predictions_are_saved_last E impute_array dataset config :
  let is_classification := String.eqb (type_ config) "classification" in
  let file := output_predictions_file config in
  ends_with (saves_predictions_of E is_classification file
               (if dummy_encode config then test_X_enc dataset else test_X dataset)
               (if dummy_encode config then test_y_enc dataset else test_y dataset))
            (constantpredictor.run E dataset config)
  /\ ends_with (fun ev =>
                  exists imputed,
                    impute_array (train_X_enc dataset) (test_X_enc dataset) = Ret imputed
                    /\ saves_predictions_of E is_classification file
                         (snd imputed) (test_y_enc dataset) ev)
               (DecisionTree.run E impute_array dataset config).
Proof.
  cbv zeta. split.
  - unfold constantpredictor.run.
    apply ends_with_bind; [repeat keeps_step|]. intros predictor. cbv zeta.
    apply ends_with_bind; [repeat keeps_step|]. intros st.
    apply predict_and_save.
  - unfold DecisionTree.run.
    apply ends_with_lift. intros imputed Himputed. cbv zeta.
    apply ends_with_bind; [repeat keeps_step|]. intros predictor.
    apply ends_with_bind; [repeat keeps_step|]. intros st.
    intros w.
    pose proof (predict_and_save E (String.eqb (type_ config) "classification")
                  (output_predictions_file config) (fst (fst st)) (snd imputed)
                  (test_y_enc dataset)
                  (summary 1 (snd (fst st)) (duration E Predict) (snd st)) w) as H.
    destruct (bind _ _ w) as [[s|e] w']; [|exact H].
    destruct H as (evs & ev & Htr & Hevs & Hev).
    exists evs, ev. split; [exact Htr|]. split; [exact Hevs|]. now exists imputed.
Qed.

(** *** The model path that is handed over *)

Lemma bind_returns {A B} (c : M world A) (k : A -> M world B) w b w' :
  bind c k w = (Ret b, w') -> exists a w1, c w = (Ret a, w1) /\ k a w1 = (Ret b, w').
Proof. unfold bind. destruct (c w) as [[a|e] w1]; [eauto|discriminate]. Qed.

(** From the fit on, the train branch is the same in the four adapters;
    [K] is what follows the branch, and [path_of] reads the model path off
    what the run returns. *)
Lemma train_branch_persists {A} E (path_of : A -> option string) m0 X y named extra
      (K : estimator * float * option string -> M world A) w a w' dir :
  bind (bind (fit E m0 X y named extra) (fun m =>
              bind (mkdtemp E) (fun d =>
              bind (try_except
                      (bind (pickle_dump_to E (Docker.path_join d "model.pkl") m)
                            (fun _ => ret (Some d)))
                      (fun _ => true) (fun _ => ret None)) (fun mp =>
              ret (m, duration E Training, mp))))) K w = (Ret a, w') ->
  path_of a = Some dir ->
  (forall st, keeps same_files (K st)) ->
  (forall st, yields (fun a => path_of a = snd st) (K st)) ->
  mkdtemp_result E = Ret dir /\ holds_fitted_model w' dir.
Proof.
  intros Hrun Hpath Hfiles Hyields.
  rewrite AdapterFacts.bind_assoc, bind_fit_eq in Hrun.
  destruct (call_kwargs named extra) as [kw|]; [|discriminate]. cbv zeta in Hrun.
  destruct (fit_result E m0 X y kw); [discriminate|].
  rewrite AdapterFacts.bind_assoc, bind_mkdtemp_eq in Hrun.
  destruct (mkdtemp_result E) as [d|]; [|discriminate].
  rewrite AdapterFacts.bind_assoc, bind_persist_eq in Hrun. cbv zeta in Hrun.
  assert (Hend : forall st wa, K st wa = (Ret a, w') -> snd st = Some dir /\ files w' = files wa).
  { intros st wa HK. split.
    - rewrite <- Hpath. symmetry. apply (Hyields st wa). now rewrite HK.
    - specialize (Hfiles st wa). now rewrite HK in Hfiles. }
  destruct (open_write_result E _).
  { rewrite AdapterFacts.bind_ret in Hrun. now apply Hend in Hrun as [[=] _]. }
  destruct (dump_result E _).
  { rewrite AdapterFacts.bind_ret in Hrun. now apply Hend in Hrun as [[=] _]. }
  rewrite AdapterFacts.bind_ret in Hrun. apply Hend in Hrun as [[= ->] Hw'].
  split; [reflexivity|]. eexists. rewrite Hw'. cbn [files].
  rewrite lookup_insert_eq. split; [reflexivity|discriminate].
Qed.

(** The other branches give no model path. *)
Lemma other_branches_give_no_path {A} (path_of : A -> option string) (task_type : string)
      (model_path : option string) (K : estimator * float * option string -> M world A) :
  (forall st, yields (fun a => path_of a = snd st) (K st)) ->
  yields (fun a => path_of a = None)
    (bind (if String.eqb task_type "predict"
           then bind (lift (os_path_join model_path "model.pkl")) (fun path =>
                bind (pickle_load_from path) (fun m => ret (m, 0%float, None)))
           else raise (Exn ValueError ("Unknown task_type: " +:+ task_type))) K).
Proof.
  intros Hyields.
  apply (yields_bind_with (fun st => snd st = None)).
  - destruct (String.eqb task_type "predict"); [|apply yields_raise].
    apply yields_bind. intros path. apply yields_bind. intros m. now apply yields_ret.
  - intros st Hst w a Ha. rewrite <- Hst. now apply (Hyields st w).
Qed.

Ltac after_branch :=
  intros ?; cbv beta;
  lazymatch goal with
  | |- keeps _ _ => repeat (cbv zeta; keeps_files_step)
  | |- yields _ _ => repeat (apply yields_bind; intros ?); apply yields_ret; reflexivity
  end.

Ltac no_path path_of config Hrun Hpath :=
  match type of Hrun with
  | bind _ ?K ?w = (Ret ?r, _) =>
      let Hy := fresh in
      let Hnone := fresh in
      assert (Hy : forall st, yields (fun a => path_of a = snd st) (K st)) by after_branch;
      pose proof (other_branches_give_no_path path_of (task_type config) (model_path config)
                    K Hy w r) as Hnone;
      rewrite Hrun in Hnone; rewrite (Hnone eq_refl) in Hpath; discriminate
  end.

(** X15.  A model path that a run hands over is never dangling: when the
    result (or the summary) of a run carries a model path, the run was a
    train run, the path is the directory [tempfile.mkdtemp] gave, and
    [model.pkl] in it holds the complete pickle of a fitted estimator. *)
Theorem model_path_is_never_dangling E impute_array dataset config w dir :
  (forall r w', RandomForest.run E dataset config w = (Ret r, w') ->
                result_model_path r = Some dir ->
                task_type config = "train" /\ mkdtemp_result E = Ret dir
                /\ holds_fitted_model w' dir)
  /\ (forall r w', flaml.run E dataset config w = (Ret r, w') ->
                   result_model_path r = Some dir ->
                   task_type config = "train" /\ mkdtemp_result E = Ret dir
                   /\ holds_fitted_model w' dir)
  /\ (forall s w', constantpredictor.run E dataset config w = (Ret s, w') ->
                   summary_model_path s = Some dir ->
                   task_type config = "train" /\ mkdtemp_result E = Ret dir
                   /\ holds_fitted_model w' dir)
  /\ (forall s w', DecisionTree.run E impute_array dataset config w = (Ret s, w') ->
                   summary_model_path s = Some dir ->
                   task_type config = "train" /\ mkdtemp_result E = Ret dir
                   /\ holds_fitted_model w' dir).
Proof.
  split; [|split; [|split]].
  - intros r w' Hrun Hpath. unfold RandomForest.run in Hrun.
    destruct (String.eqb_spec (task_type config) "train") as [Htask|Htask].
    + split; [exact Htask|].
      rewrite AdapterFacts.bind_assoc, bind_new_eq in Hrun.
      destruct (call_kwargs _ _) as [kw|]; [|discriminate].
      destruct (new_result E _ kw); [discriminate|].
      eapply (train_branch_persists E result_model_path); [exact Hrun|exact Hpath|..];
        after_branch.
    + no_path result_model_path config Hrun Hpath.
  - intros r w' Hrun Hpath. unfold flaml.run in Hrun.
    destruct (String.eqb_spec (task_type config) "train") as [Htask|Htask].
    + split; [exact Htask|].
      rewrite AdapterFacts.bind_assoc, bind_new_eq in Hrun. cbn [call_kwargs] in Hrun.
      destruct (new_result E _ _); [discriminate|].
      rewrite AdapterFacts.bind_assoc, bind_lift_eq in Hrun.
      destruct (output_subdir_result E "logs") as [log_dir|]; [|discriminate].
      eapply (train_branch_persists E result_model_path); [exact Hrun|exact Hpath|..];
        after_branch.
    + no_path result_model_path config Hrun Hpath.
  - intros s w' Hrun Hpath. unfold constantpredictor.run in Hrun.
    apply bind_returns in Hrun as (predictor & w1 & _ & Hrun). cbv zeta in Hrun.
    destruct (String.eqb_spec (task_type config) "train") as [Htask|Htask].
    + split; [exact Htask|].
      eapply (train_branch_persists E summary_model_path); [exact Hrun|exact Hpath|..];
        after_branch.
    + no_path summary_model_path config Hrun Hpath.
  - intros s w' Hrun Hpath. unfold DecisionTree.run in Hrun.
    rewrite bind_lift_eq in Hrun.
    destruct (impute_array _ _) as [imputed|]; [|discriminate].
    rewrite bind_new_eq in Hrun.
    destruct (call_kwargs _ _) as [kw|]; [|discriminate].
    destruct (new_result E _ kw); [discriminate|].
    destruct (String.eqb_spec (task_type config) "train") as [Htask|Htask].
    + split; [exact Htask|].
      eapply (train_branch_persists E summary_model_path); [exact Hrun|exact Hpath|..];
        after_branch.
    + no_path summary_model_path config Hrun Hpath.
Qed.

Lemma model_path_is_never_dangling_witness :
  task_type (task "train" None) = "train"
  /\ mkdtemp_result (sample_env disk_ok) = Ret "/tmp/tmpk3x9"
  /\ holds_fitted_model
       (snd (RandomForest.run (sample_env disk_ok) ds0 (task "train" None) w0)) "/tmp/tmpk3x9".
Proof.
  eapply (proj1 (model_path_is_never_dangling (sample_env disk_ok) MoreSamples.impute_id ds0
                   (task "train" None) w0 "/tmp/tmpk3x9"));
    [vm_compute; reflexivity|reflexivity].
Defined.

End AdapterMoreFacts.

(** ** More properties of the tuned random forest *)

Module TunedRandomForestMoreFacts.
Import TunedRandomForest TunedRandomForestMore.

Lemma sorted_lt_NoDup l : StronglySorted Z.lt l -> NoDup l.
Proof.
  induction 1 as [|x l Hs IH Hall]; constructor; [|exact IH].
  intros Hin. apply list_elem_of_In in Hin.
  rewrite List.Forall_forall in Hall. specialize (Hall x Hin). lia.
Qed.



Lemma removelast_shorter {A} (l : list A) : (List.length (removelast l) <= pred (List.length l))%nat.
Proof.
  induction l as [|x l IH]; simpl; [lia|].
  destruct l; simpl in *; lia.
Qed.


Lemma omap_raise {A B} (f : A -> outcome B) l e :
  omap f l = Raise e -> exists x, In x l /\ f x = Raise e.
Proof.
  induction l as [|x l IH]; simpl; [discriminate|].
  destruct (f x) as [y|e'] eqn:Hx; simpl.
  - destruct (omap f l); simpl; [discriminate|].
    intros [= <-]. destruct IH as (x' & Hin & Hx'); [reflexivity|].
    exists x'. split; [now right|exact Hx'].
  - intros [= <-]. exists x. split; [now left|exact Hx].
Qed.

Lemma float_of_int_raise z e : float_of_int z = Raise e -> exn_cls e = OverflowError.
Proof. unfold float_of_int. destruct (is_infinity _); [|discriminate]. now intros [= <-]. Qed.

Lemma int_of_float_raise f e :
  int_of_float f = Raise e -> exn_cls e = OverflowError \/ exn_cls e = ValueError.
Proof.
  unfold int_of_float. destruct (Prim2SF f); try discriminate; intros [= <-]; auto.
Qed.

(** What [pick_values_uniform] can raise. *)
Lemma pick_values_uniform_raise start end_ length e :
  pick_values_uniform start end_ length = Raise e ->
  (exn_cls e = ZeroDivisionError /\ length = 1%Z)
  \/ exn_cls e = OverflowError \/ exn_cls e = ValueError.
Proof.
  unfold pick_values_uniform, int_truediv.
  destruct (Z.eqb_spec (length - 1) 0) as [Hz|Hz]; simpl.
  { intros [= <-]. left. split; [reflexivity|lia]. }
  destruct (is_infinity _); simpl; [intros [= <-]; auto|].
  destruct (omap _ (range length)) as [fs|e1] eqn:Hfs; simpl.
  - destruct (omap int_of_float fs) as [ints|e2] eqn:Hints; simpl; [discriminate|].
    intros [= <-]. apply omap_raise in Hints as (f & _ & Hf).
    right. now apply int_of_float_raise in Hf.
  - intros [= <-]. apply omap_raise in Hfs as (i & _ & Hi).
    right. left.
    destruct (float_of_int i) eqn:Hfi; simpl in Hi; [|injection Hi as <-; eapply float_of_int_raise; eauto].
    destruct (float_of_int start) eqn:Hfst; simpl in Hi; [discriminate|].
    injection Hi as <-. eapply float_of_int_raise; eauto.
Qed.

(** X16.  Whenever [pick_values_uniform] returns, the list is strictly
    increasing, so without duplicates, and has at most [length] elements
    (none for [length <= 0]); from [length = 2] on it is not empty. *)
Theorem pick_values_uniform_result start end_ length l :
  pick_values_uniform start end_ length = Ret l ->
  StronglySorted Z.lt l /\ NoDup l
  /\ (Z.of_nat (List.length l) <= Z.max 0 length)%Z
  /\ (2 <= length -> l <> [])%Z.
Proof.
  intros H.
  destruct (TunedRandomForestFacts.pick_values_uniform_sorted _ _ _ _ H) as [Hs Hlen].
  split; [exact Hs|]. split; [now apply sorted_lt_NoDup|]. split; [exact Hlen|].
  intros Hlength ->.
  unfold pick_values_uniform in H.
  destruct (int_truediv _ _) as [d|]; simpl in H; [|discriminate].
  destruct (omap _ (range length)) as [fs|] eqn:Hfs; simpl in H; [|discriminate].
  destruct (omap int_of_float fs) as [ints|] eqn:Hints; simpl in H; [|discriminate].
  injection H as H.
  apply TunedRandomForestFacts.omap_length in Hfs, Hints.
  unfold range in Hfs. rewrite length_map, length_seq in Hfs.
  destruct ints as [|i ints]; [simpl in Hints; lia|].
  assert (Hin : In i (sorted_set (i :: ints))).
  { apply TunedRandomForestFacts.sorted_set_In. now left. }
  rewrite H in Hin. destruct Hin.
Qed.

Lemma pick_values_uniform_result_witness :
  StronglySorted Z.lt [7; 18; 29; 40; 51; 62]%Z /\ NoDup [7; 18; 29; 40; 51; 62]%Z
  /\ (Z.of_nat (List.length [7; 18; 29; 40; 51; 62]%Z) <= Z.max 0 6)%Z
  /\ (2 <= 6 -> [7; 18; 29; 40; 51; 62]%Z <> [])%Z.
Proof.
  apply (pick_values_uniform_result 7 62 6). vm_compute. reflexivity.
Defined.

(** X17.  The division of line 32 is by zero exactly when [length = 1]:
    then [pick_values_uniform] raises [ZeroDivisionError] whatever the
    bounds, and it raises it for no other length.  [run] asks for [6]
    values and then for at least [6] more, so the list of values to try
    is never lost to a division by zero. *)
Theorem division_by_zero_only_for_length_1 :
  (forall start end_,
      pick_values_uniform start end_ 1 = Raise (Exn ZeroDivisionError "division by zero"))
  /\ (forall start end_ length e,
         pick_values_uniform start end_ length = Raise e ->
         exn_cls e = ZeroDivisionError -> length = 1%Z)
  /\ (forall n_features e,
         max_features_values n_features = Raise e -> exn_cls e <> ZeroDivisionError).
Proof.
  split; [reflexivity|]. split.
  - intros start end_ length e H Hcls.
    apply pick_values_uniform_raise in H as [[_ H]|[H|H]]; [exact H|congruence..].
  - intros n e. unfold max_features_values, math_sqrt.
    destruct (float_of_int n) as [f|e0] eqn:Hf; simpl;
      [|intros [= <-]; apply float_of_int_raise in Hf; congruence].
    destruct (f <? 0)%float; simpl; [now intros [= <-]|].
    destruct (int_of_float (PrimFloat.sqrt f)) as [r|e1] eqn:Hr; simpl;
      [|intros [= <-]; apply int_of_float_raise in Hr as [Hr|Hr]; congruence].
    destruct (pick_values_uniform 1 (Z.max 1 r) (5 + 1)) as [l1|e2] eqn:H1; simpl.
    + destruct (pick_values_uniform (Z.max 1 r) n _) as [l2|e3] eqn:H2; simpl; [discriminate|].
      intros [= <-] Hcls.
      apply pick_values_uniform_raise in H2 as [[_ H2]|[H2|H2]]; [|congruence..].
      apply TunedRandomForestFacts.pick_values_uniform_sorted in H1 as [_ H1].
      pose proof (removelast_shorter l1). lia.
    + intros [= <-] Hcls.
      apply pick_values_uniform_raise in H1 as [[_ H1]|[H1|H1]]; [lia|congruence..].
Qed.

Lemma division_by_zero_only_for_length_1_witness :
  exn_cls (Exn OverflowError "int too large to convert to float") <> ZeroDivisionError.
Proof.
  apply (proj2 (proj2 division_by_zero_only_for_length_1) (2 ^ 1024)%Z).
  vm_compute. reflexivity.
Defined.



End TunedRandomForestMoreFacts.
